(** * Merkle-tree data integrity checker: a shallow embedding

    The Python program keeps an ordered list of review records, hashes it
    into a binary hash tree and stores the apex digest in versioned snapshot
    files.  This development embeds the parts of the program its
    specification talks about and checks the specification against them.

    Layout: Python built-ins the code relies on ([PyStr], [PyFloat]), the
    data model, one module per source file, and then the theorems. *)

From Stdlib Require Import ZArith NArith List String Ascii Bool Lia.
From Stdlib Require Import SpecFloat DecimalString DecimalN DecimalNat.
From stdpp Require Import base gmap strings list.
From Equations Require Import Equations.
Import ListNotations.

Open Scope Z_scope.

(** ** Python exceptions and results *)

Inductive Exception :=
| ZeroDivisionError
| IndexError
| AttributeError
| JSONDecodeError
| FileNotFoundError
| ValueError
| TypeError
| EmptyInputError.

(** A computation that may raise: [inl e] is an exception propagating to the
    caller, [inr v] a normal return. *)
Definition Raises (A : Type) : Type := Exception + A.

Definition ret {A} (v : A) : Raises A := inr v.
Definition raise {A} (e : Exception) : Raises A := inl e.
Definition bind {A B} (c : Raises A) (k : A -> Raises B) : Raises B :=
  match c with
  | inl e => inl e
  | inr v => k v
  end.

Notation "'let*' x ':=' c 'in' k" := (bind c (fun x => k))
  (at level 10, x name, c at level 100, k at level 200).

(** ** Python string operations *)

Module PyStr.

(** [s.startswith(p)] *)
Definition startswith (s p : string) : bool := String.prefix p s.

(** [s.endswith(suf)] *)
Definition endswith (s suf : string) : bool :=
  (String.length suf <=? String.length s)%nat
  && String.eqb (substring (String.length s - String.length suf) (String.length suf) s) suf.

(** [s[start:-drop]] for [drop > 0]: empty when the two bounds cross. *)
Definition slice (s : string) (start drop : nat) : string :=
  substring start (String.length s - drop - start) s.

(** [s.split(sep)] for a non-empty separator: a left-to-right scan for
    non-overlapping occurrences.  [skip] counts the characters of the
    occurrence being stepped over, [cur] is the piece being collected. *)
Fixpoint split_scan (sep : string) (skip : nat) (cur : string) (s : string) : list string :=
  match s with
  | EmptyString => [cur]
  | String c rest =>
      match skip with
      | S k => split_scan sep k cur rest
      | O =>
          if String.prefix sep s
          then cur :: split_scan sep (String.length sep - 1) EmptyString rest
          else split_scan sep 0 (cur +:+ String c EmptyString) rest
      end
  end.

Definition split (s sep : string) : list string := split_scan sep 0 EmptyString s.

(** The characters [str.strip()] removes from an ASCII string
    (those for which [str.isspace()] holds). *)
Definition is_space (c : ascii) : bool :=
  let n := nat_of_ascii c in
  ((9 <=? n) && (n <=? 13) || (28 <=? n) && (n <=? 32))%nat.

Fixpoint lstrip (s : string) : string :=
  match s with
  | String c rest => if is_space c then lstrip rest else s
  | EmptyString => EmptyString
  end.

Fixpoint rstrip (s : string) : string :=
  match s with
  | String c rest =>
      match rstrip rest with
      | EmptyString => if is_space c then EmptyString else String c EmptyString
      | kept => String c kept
      end
  | EmptyString => EmptyString
  end.

Definition strip (s : string) : string := rstrip (lstrip s).

(** [str(n)] for a non-negative integer. *)
Definition decimal (n : N) : string := NilZero.string_of_uint (N.to_uint n).

(** ["0" * k] *)
Fixpoint zeros (k : nat) : string :=
  match k with
  | O => EmptyString
  | S k' => String "0" (zeros k')
  end.

(** [f"{n:06d}"]: decimal, padded with zeros on the left to six characters. *)
Definition format_06d (n : N) : string :=
  let digits := decimal n in
  zeros (6 - String.length digits) +:+ digits.

End PyStr.

(** ** Python floats

    A Python [float] is an IEEE-754 binary64 number; the standard library's
    [spec_float] with precision 53 is the same data, and its operations round
    to nearest, ties to even, as the hardware does. *)

Module PyFloat.

Definition prec : Z := 53.
Definition emax : Z := 1024.

(** [a + b] *)
Definition add (a b : spec_float) : spec_float := SFadd prec emax a b.

(** [a > b]: false as soon as one side is NaN. *)
Definition gt (a b : spec_float) : bool := SFltb b a.

(** [a <= b]: false as soon as one side is NaN. *)
Definition le (a b : spec_float) : bool := SFleb a b.

(** [x != x], which holds of NaN alone. *)
Definition is_nan (x : spec_float) : bool :=
  match x with
  | S754_nan => true
  | _ => false
  end.

Definition is_digit (c : ascii) : bool :=
  let n := nat_of_ascii c in ((48 <=? n) && (n <=? 57))%nat.

Definition digit_value (c : ascii) : N := N_of_ascii c - 48.

(** The blanks [float()] strips from both ends of an ASCII string. *)
Definition is_blank (c : ascii) : bool :=
  let n := nat_of_ascii c in ((9 <=? n) && (n <=? 13) || (n =? 32))%nat.

Definition lower (c : ascii) : ascii :=
  let n := nat_of_ascii c in
  if ((65 <=? n) && (n <=? 90))%nat then ascii_of_nat (n + 32) else c.

Fixpoint lowercase (s : string) : string :=
  match s with
  | EmptyString => EmptyString
  | String c rest => String (lower c) (lowercase rest)
  end.

Fixpoint lstrip (s : string) : string :=
  match s with
  | String c rest => if is_blank c then lstrip rest else s
  | EmptyString => EmptyString
  end.

Fixpoint rstrip (s : string) : string :=
  match s with
  | String c rest =>
      match rstrip rest with
      | EmptyString => if is_blank c then EmptyString else String c EmptyString
      | kept => String c kept
      end
  | EmptyString => EmptyString
  end.

(** An underscore is accepted only directly between two digits; accepted
    underscores are dropped.  [prev] is the character just read. *)
Fixpoint drop_underscores (prev : option ascii) (s : string) : option string :=
  let prev_is_digit := match prev with Some p => is_digit p | None => false end in
  let prev_is_underscore := match prev with Some p => Ascii.eqb p "_" | None => false end in
  match s with
  | EmptyString => if prev_is_underscore then None else Some EmptyString
  | String c rest =>
      if Ascii.eqb c "_" then
        if prev_is_digit then drop_underscores (Some c) rest else None
      else if prev_is_underscore && negb (is_digit c) then None
      else option_map (String c) (drop_underscores (Some c) rest)
  end.

(** Reads a run of digits: the number read so far, how many digits were
    read, and what follows them. *)
Fixpoint take_digits (s : string) (acc : N) (count : nat) : N * nat * string :=
  match s with
  | String c rest =>
      if is_digit c then take_digits rest (acc * 10 + digit_value c)%N (S count)
      else (acc, count, s)
  | EmptyString => (acc, count, s)
  end.

Definition take_sign (s : string) : bool * string :=
  match s with
  | String "-" rest => (true, rest)
  | String "+" rest => (false, rest)
  | _ => (false, s)
  end.

(** A decimal numeral [digits [. digits] [e [sign] digits]] with at least
    one mantissa digit, read as [mantissa * 10 ^ exponent]. *)
Definition parse_decimal (s : string) : option (N * Z) :=
  let '(int_part, n_int, after_int) := take_digits s 0%N 0%nat in
  let '(mantissa, n_frac, after_frac) :=
    match after_int with
    | String "." rest => take_digits rest int_part 0%nat
    | _ => (int_part, 0%nat, after_int)
    end in
  if (n_int + n_frac =? 0)%nat then None
  else
    match after_frac with
    | EmptyString => Some (mantissa, - Z.of_nat n_frac)
    | String c rest =>
        if Ascii.eqb (lower c) "e" then
          let '(exp_neg, after_sign) := take_sign rest in
          let '(exp_abs, n_exp, after_exp) := take_digits after_sign 0%N 0%nat in
          match n_exp, after_exp with
          | S _, EmptyString =>
              Some (mantissa, (if exp_neg then - Z.of_N exp_abs else Z.of_N exp_abs) - Z.of_nat n_frac)
          | _, _ => None
          end
        else None
    end.

(** The binary64 number nearest to [mantissa * 10 ^ exponent]. *)
Definition of_decimal (neg : bool) (mantissa : N) (exponent : Z) : spec_float :=
  match mantissa with
  | N0 => S754_zero neg
  | Npos m =>
      if 0 <=? exponent
      then binary_round prec emax neg (m * Z.to_pos (10 ^ exponent)) 0
      else SFdiv prec emax (S754_finite neg m 0)
                           (S754_finite false (Z.to_pos (10 ^ (- exponent))) 0)
  end.

(** [float(s)] for an ASCII string [s]; [None] is [ValueError].  Beyond
    ASCII, [float] also reads the other decimal digits and blanks of
    Unicode, which this function rejects: statements that rest on a [None]
    are made of ASCII strings (see [is_ascii]). *)
Definition of_string (s : string) : option spec_float :=
  match drop_underscores None s with
  | None => None
  | Some cleaned =>
      let '(neg, body) := take_sign (rstrip (lstrip cleaned)) in
      let word := lowercase body in
      if String.eqb word "inf" || String.eqb word "infinity" then Some (S754_infinity neg)
      else if String.eqb word "nan" then Some S754_nan
      else option_map (fun '(m, e) => of_decimal neg m e) (parse_decimal body)
  end.

(** [num / den] rounded to the nearest integer, ties to the even one. *)
Definition round_half_even (num den : Z) : Z :=
  let '(q, r) := Z.div_eucl num den in
  match 2 * r ?= den with
  | Lt => q
  | Eq => if Z.even q then q else q + 1
  | Gt => q + 1
  end.

(** [f"{x:.1f}"]: the exact value of [x] rounded to one decimal. *)
Definition format_1f (x : spec_float) : string :=
  match x with
  | S754_nan => "nan"
  | S754_infinity s => if s then "-inf" else "inf"
  | S754_zero s => if s then "-0.0" else "0.0"
  | S754_finite s m e =>
      let tenths :=
        if 0 <=? e then Z.pos m * 2 ^ e * 10
        else round_half_even (Z.pos m * 10) (2 ^ (- e)) in
      (if s then "-" else "") +:+ PyStr.decimal (Z.to_N (tenths / 10))
        +:+ "." +:+ PyStr.decimal (Z.to_N (tenths mod 10))
  end.

(** The literals [1.0] and [0.1]. *)
Definition one : spec_float := S754_finite false 4503599627370496 (-52).
Definition one_tenth : spec_float := S754_finite false 7205759403792794 (-56).

End PyFloat.

(** ** Other Python built-ins *)

(** [int(s)] for an ASCII string [s]: blanks around, an optional sign, and
    digits with single underscores between them; [None] is [ValueError].
    As for [PyFloat.of_string], a [None] is [ValueError] on ASCII strings
    only. *)
Definition py_int (s : string) : option Z :=
  match PyFloat.drop_underscores None s with
  | None => None
  | Some cleaned =>
      let '(neg, body) := PyFloat.take_sign (PyFloat.rstrip (PyFloat.lstrip cleaned)) in
      match PyFloat.take_digits body 0%N 0%nat with
      | (n, S _, EmptyString) => Some (if neg then - Z.of_N n else Z.of_N n)
      | _ => None
      end
  end.

(** [l[i]] *)
Definition item {A} (l : list A) (i : nat) : Raises A :=
  match nth_error l i with
  | Some x => ret x
  | None => raise IndexError
  end.

(** [max(first, *others, key=key)] on float keys: the running maximum is
    replaced only by an element whose key is greater. *)
Definition py_max_by {A} (key : A -> spec_float) (first : A) (others : list A) : A :=
  fold_left (fun best candidate => if PyFloat.gt (key candidate) (key best) then candidate else best)
            others first.

(** ** Data model *)

(** The JSON values a snapshot file holds. *)
Inductive json_value :=
| JNull
| JStr (s : string)
| JInt (z : Z).

(** [bool(v)], as [if not v] tests it. *)
Definition truthy (v : json_value) : bool :=
  match v with
  | JNull => false
  | JStr s => negb (String.eqb s EmptyString)
  | JInt z => negb (z =? 0)
  end.

(** [v == s] for a Python string [s]. *)
Definition equals_str (v : json_value) (s : string) : bool :=
  match v with
  | JStr t => String.eqb t s
  | _ => false
  end.

(** What [json.load] finds in a file: text that is no JSON ([json.load]
    raises), JSON that is no object (a list, a string, a number, [true],
    [false] or [null], none of which has a [get] method), or a JSON object. *)
Inductive file_content :=
| Malformed
| NotAnObject
| JsonObject (fields : gmap string json_value).

(** A directory in [os.listdir] order; file names are unique.  The entries
    are the files of the directory itself: a name is one path component
    (see [plain_name]), so that joining it to the directory names a file in
    the directory and not below or outside it. *)
Definition directory : Type := list (string * file_content).

Definition listdir (dir : directory) : list string := map fst dir.

Fixpoint read_file (dir : directory) (name : string) : option file_content :=
  match dir with
  | [] => None
  | (n, c) :: rest => if String.eqb n name then Some c else read_file rest name
  end.

(** [open(name, 'w')] followed by [json.dump], for a name that is one path
    component: an existing file is truncated and rewritten, a new one is
    created in the directory. *)
Fixpoint write_file (dir : directory) (name : string) (content : file_content) : directory :=
  match dir with
  | [] => [(name, content)]
  | (n, c) :: rest =>
      if String.eqb n name then (n, content) :: rest
      else (n, c) :: write_file rest name content
  end.

(** One review of the dataset.  Every field of the raw JSON line may be
    missing ([None]); present fields carry values of the dataset's schema
    types, and the theorems about reviews speak of such records only. *)
Record Review := mkReview {
  ReviewID : option string;
  overall : option spec_float;
  vote : option string;
  verified : option bool;
  reviewTime : option string;
  reviewerID : option string;
  asin : option string;
  style : option (list (string * string));
  reviewerName : option string;
  reviewText : option string;
  summary : option string;
  unixReviewTime : option Z
}.

(** One vertex of the hash tree; a leaf has no children. *)
Inductive TreeVertex :=
| Vertex (hash_value : string) (left_child right_child : option TreeVertex).

Definition vertex_hash (v : TreeVertex) : string :=
  match v with Vertex h _ _ => h end.

(** The attributes of an [IntegrityTreeStructure] object that the callers
    read. *)
Record IntegrityTreeStructure := mkTree {
  terminal_list : list TreeVertex;
  apex_vertex : option TreeVertex
}.

(** [IntegrityTreeStructure()] *)
Definition new_tree : IntegrityTreeStructure := mkTree [] None.

(** What the commands see of the outside world. *)
Record World := mkWorld {
  (** [data/raw/<name>.json], one record per line, if it exists *)
  raw_files : string -> option (list Review);
  (** [data/processed/<name>_proc.json]: absent, unreadable ([Some None]),
      or a list of records *)
  processed_files : string -> option (option (list Review));
  (** the [roots] directory, if it exists *)
  roots_dir : option directory;
  (** [datetime.datetime.now().isoformat()] *)
  clock : string;
  (** the peak that the memory tracer reports for a build *)
  traced_peak : N
}.

Definition with_roots (w : World) (dir : directory) : World :=
  mkWorld (raw_files w) (processed_files w) (Some dir) (clock w) (traced_peak w).

Definition with_processed (w : World) (name : string) (records : list Review) : World :=
  mkWorld (raw_files w)
          (fun n => if String.eqb n name then Some (Some records) else processed_files w n)
          (roots_dir w) (clock w) (traced_peak w).

(** ** dataset_processor.py *)

(** [a % b] on integers. *)
Definition py_mod (a b : Z) : Raises Z :=
  if b =? 0 then raise ZeroDivisionError else ret (a mod b).

(** The test in front of every progress display:
    [index % (total // 10) == 0 or index == total - 1]. *)
Definition progress_due (index total : Z) : Raises bool :=
  let* remainder := py_mod index (total / 10) in
  ret ((remainder =? 0) || (index =? total - 1)).

(** The [for] loop of [load_and_process] over the lines of the source file. *)
Fixpoint import_lines (source_file : list Review) (line_number record_count : Z)
    (imported_records : list Review) : Raises (list Review) :=
  match source_file with
  | [] => ret imported_records
  | record :: rest =>
      if record_count <=? line_number then ret imported_records
      else
        let imported_records := imported_records ++ [record] in
        let* _ := progress_due line_number record_count in
        import_lines rest (line_number + 1) record_count imported_records
  end.

Record Statistics := mkStatistics {
  total_loaded : Z;
  valid_records : Z;
  duplicates_removed : Z;
  missing_fields_handled : Z;
  unique_ids_generated : Z
}.

(** A missing field takes its default and counts as one corrected field. *)
Definition or_default {A} (field : option A) (default_value : A) : option A * Z :=
  match field with
  | Some v => (Some v, 0)
  | None => (Some default_value, 1)
  end.

Definition fill_missing_fields (record : Review) : Review * Z :=
  let '(f_overall, c1) := or_default (overall record) (S754_zero false) in
  let '(f_vote, c2) := or_default (vote record) EmptyString in
  let '(f_verified, c3) := or_default (verified record) false in
  let '(f_reviewTime, c4) := or_default (reviewTime record) EmptyString in
  let '(f_reviewerID, c5) := or_default (reviewerID record) EmptyString in
  let '(f_asin, c6) := or_default (asin record) EmptyString in
  let '(f_style, c7) := or_default (style record) [] in
  let '(f_reviewerName, c8) := or_default (reviewerName record) EmptyString in
  let '(f_reviewText, c9) := or_default (reviewText record) EmptyString in
  let '(f_summary, c10) := or_default (summary record) EmptyString in
  let '(f_unixReviewTime, c11) := or_default (unixReviewTime record) 0 in
  (mkReview (ReviewID record) f_overall f_vote f_verified f_reviewTime f_reviewerID
            f_asin f_style f_reviewerName f_reviewText f_summary f_unixReviewTime,
   c1 + c2 + c3 + c4 + c5 + c6 + c7 + c8 + c9 + c10 + c11).

(** The seven text fields are stripped.  The fields of a [Review] already
    hold values of their target types, on which the conversions of the
    source ([float], [bool], [int], the [isinstance] test on [style]) change
    nothing and raise nothing, and the composite key is hashable; what the
    source does to a field of another JSON type is outside this model. *)
Definition normalize_text_fields (record : Review) : Review :=
  mkReview (ReviewID record) (overall record)
           (option_map PyStr.strip (vote record))
           (verified record)
           (option_map PyStr.strip (reviewTime record))
           (option_map PyStr.strip (reviewerID record))
           (option_map PyStr.strip (asin record))
           (style record)
           (option_map PyStr.strip (reviewerName record))
           (option_map PyStr.strip (reviewText record))
           (option_map PyStr.strip (summary record))
           (unixReviewTime record).

Definition CompositeKey : Type := string * string * Z.

(** [(record["reviewerID"], record["asin"], record["unixReviewTime"])] *)
Definition composite_key (record : Review) : CompositeKey :=
  (default EmptyString (reviewerID record),
   default EmptyString (asin record),
   default 0 (unixReviewTime record)).

(** What the body of the first loop does to one raw record. *)
Definition sanitize_record (record : Review) : Review * Z :=
  let '(filled, corrected) := fill_missing_fields record in
  (normalize_text_fields filled, corrected).

(** The first loop of [sanitize_and_normalize]. *)
Fixpoint sanitize_loop (raw_records : list Review) (index record_total fields_corrected : Z)
    (duplicate_tracker : gset CompositeKey) (deduplicated_records : list Review)
    : Raises (Z * list Review) :=
  match raw_records with
  | [] => ret (fields_corrected, deduplicated_records)
  | record :: rest =>
      let '(record, corrected) := sanitize_record record in
      let key := composite_key record in
      let '(duplicate_tracker, deduplicated_records) :=
        if decide (key ∈ duplicate_tracker)
        then (duplicate_tracker, deduplicated_records)
        else ({[ key ]} ∪ duplicate_tracker, deduplicated_records ++ [record]) in
      let* _ := progress_due index record_total in
      sanitize_loop rest (index + 1) record_total (fields_corrected + corrected)
                    duplicate_tracker deduplicated_records
  end.

Definition set_ReviewID (record : Review) (id : string) : Review :=
  mkReview (Some id) (overall record) (vote record) (verified record) (reviewTime record)
           (reviewerID record) (asin record) (style record) (reviewerName record)
           (reviewText record) (summary record) (unixReviewTime record).

(** [f"R{index:06d}"] *)
Definition review_id (index : Z) : string :=
  String "R" (PyStr.format_06d (Z.to_N index)).

(** The second loop: identifiers in list order. *)
Fixpoint assign_ids (records : list Review) (index unique_record_count : Z)
    : Raises (list Review) :=
  match records with
  | [] => ret []
  | record :: rest =>
      let record := set_ReviewID record (review_id index) in
      let* _ := progress_due index unique_record_count in
      let* rest := assign_ids rest (index + 1) unique_record_count in
      ret (record :: rest)
  end.

(** [sanitize_and_normalize]: the processed records (which it also writes to
    the processed file) and the statistics. *)
Definition sanitize_and_normalize (raw_records : list Review)
    : Raises (list Review * Statistics) :=
  let initial_count := Z.of_nat (length raw_records) in
  let record_total := Z.of_nat (length raw_records) in
  let* swept := sanitize_loop raw_records 0 record_total 0 ∅ [] in
  let '(fields_corrected, deduplicated_records) := swept in
  let unique_record_count := Z.of_nat (length deduplicated_records) in
  let* deduplicated_records := assign_ids deduplicated_records 0 unique_record_count in
  ret (deduplicated_records,
       mkStatistics initial_count
                    (Z.of_nat (length deduplicated_records))
                    (initial_count - Z.of_nat (length deduplicated_records))
                    fields_corrected
                    (Z.of_nat (length deduplicated_records))).

(** [load_and_process(record_count)] on a source file that may be absent. *)
Definition load_and_process (source_file : option (list Review)) (record_count : Z)
    : Raises (list Review * Statistics) :=
  match source_file with
  | None => raise FileNotFoundError
  | Some lines =>
      let* imported_records := import_lines lines 0 record_count [] in
      sanitize_and_normalize imported_records
  end.

(** [import_dataset]: what the command reports. *)
Inductive ImportReport :=
| Import_Usage
| Import_InvalidCount
| Import_OutOfRange
| Import_Successful (processing_stats : Statistics)
| Import_NoRecords
| Import_FileError
| Import_Error (error : Exception).

(** [SystemController.import_dataset] (command_interface.py). *)
Definition import_dataset (parameters : list string) (w : World) : ImportReport * World :=
  match parameters with
  | [dataset_identifier; count_text] =>
      match py_int count_text with
      | None => (Import_InvalidCount, w)
      | Some record_limit =>
          if (record_limit <? 1) || (1500000 <? record_limit) then (Import_OutOfRange, w)
          else
            match load_and_process (raw_files w dataset_identifier) record_limit with
            | inr (records, processing_stats) =>
                (match records with
                 | [] => Import_NoRecords
                 | _ :: _ => Import_Successful processing_stats
                 end,
                 with_processed w dataset_identifier records)
            | inl FileNotFoundError => (Import_FileError, w)
            | inl error => (Import_Error error, w)
            end
      end
  | _ => (Import_Usage, w)
  end.

(** ** dataset_modifier.py *)

(** What ends an interactive command early: [input()] at the end of the
    input, or an exception nobody catches. *)
Inductive Interrupt :=
| EOFError
| Uncaught (error : Exception).

(** [input(prompt)]: the next line typed, and the lines that remain. *)
Definition read_line (inputs : list string) : Interrupt + (string * list string) :=
  match inputs with
  | [] => inl EOFError
  | line :: rest => inr (line, rest)
  end.

(** [s[1:]] *)
Definition drop_first (s : string) : string :=
  match s with
  | EmptyString => EmptyString
  | String _ rest => rest
  end.

(** The list comprehension that collects the numbers of the identifiers
    [R<number>]; [int] raises [ValueError] on an identifier whose tail is
    no integer. *)
Fixpoint id_number_list (record_collection : list Review) : Raises (list Z) :=
  match record_collection with
  | [] => ret []
  | rec :: rest =>
      match ReviewID rec with
      | Some id =>
          if PyStr.startswith id "R" then
            match py_int (drop_first id) with
            | Some number =>
                let* numbers := id_number_list rest in
                ret (number :: numbers)
            | None => raise ValueError
            end
          else id_number_list rest
      | None => id_number_list rest
      end
  end.

(** [max(numbers) + 1 if numbers else 0] *)
Definition next_id_value (numbers : list Z) : Z :=
  match numbers with
  | [] => 0
  | first :: others => fold_left Z.max others first + 1
  end.

(** [f"{z:06d}"] for any integer: the sign counts in the width. *)
Definition format_06d_int (z : Z) : string :=
  if z <? 0 then
    let digits := PyStr.decimal (Z.to_N (- z)) in
    String "-" (PyStr.zeros (5 - String.length digits) +:+ digits)
  else PyStr.format_06d (Z.to_N z).

(** What the insertion takes from the random generator and the clock. *)
Record InsertDraws := mkDraws {
  generated_reviewer_id : string;
  generated_asin : string;
  formatted_time : string;
  unix_time_value : Z
}.

(** The loop that asks for the rating of a new record: an empty answer
    stands for 0.0, an answer that is no float is asked again. *)
Fixpoint ask_overall_or_default (inputs : list string) : Interrupt + (spec_float * list string) :=
  match inputs with
  | [] => inl EOFError
  | line :: rest =>
      let overall_input := PyStr.strip line in
      if String.eqb overall_input EmptyString then inr (S754_zero false, rest)
      else
        match PyFloat.of_string overall_input with
        | Some value => inr (value, rest)
        | None => ask_overall_or_default rest
        end
  end.

(** The loop that asks for a new rating until the answer is a float. *)
Fixpoint ask_overall (inputs : list string) : Interrupt + (spec_float * list string) :=
  match inputs with
  | [] => inl EOFError
  | line :: rest =>
      match PyFloat.of_string (PyStr.strip line) with
      | Some value => inr (value, rest)
      | None => ask_overall rest
      end
  end.

(** [s.replace(c, "")] for a one-character [c]. *)
Fixpoint remove_char (c : ascii) (s : string) : string :=
  match s with
  | EmptyString => EmptyString
  | String x rest => if Ascii.eqb x c then remove_char c rest else String x (remove_char c rest)
  end.

Inductive ModifiableField :=
| Field_overall
| Field_vote
| Field_reviewerName
| Field_reviewText
| Field_summary.

(** [field_mapping.get(field_input)] *)
Definition field_mapping (field_input : string) : option ModifiableField :=
  if String.eqb field_input "overall" then Some Field_overall
  else if String.eqb field_input "vote" then Some Field_vote
  else if String.eqb field_input "name" then Some Field_reviewerName
  else if String.eqb field_input "reviewtext" then Some Field_reviewText
  else if String.eqb field_input "review_text" then Some Field_reviewText
  else if String.eqb field_input "summary" then Some Field_summary
  else None.

(** [target_record[mapped_field] = text] for the four text fields. *)
Definition set_text_field (record : Review) (field : ModifiableField) (text : string) : Review :=
  match field with
  | Field_overall => record
  | Field_vote =>
      mkReview (ReviewID record) (overall record) (Some text) (verified record)
               (reviewTime record) (reviewerID record) (asin record) (style record)
               (reviewerName record) (reviewText record) (summary record)
               (unixReviewTime record)
  | Field_reviewerName =>
      mkReview (ReviewID record) (overall record) (vote record) (verified record)
               (reviewTime record) (reviewerID record) (asin record) (style record)
               (Some text) (reviewText record) (summary record) (unixReviewTime record)
  | Field_reviewText =>
      mkReview (ReviewID record) (overall record) (vote record) (verified record)
               (reviewTime record) (reviewerID record) (asin record) (style record)
               (reviewerName record) (Some text) (summary record) (unixReviewTime record)
  | Field_summary =>
      mkReview (ReviewID record) (overall record) (vote record) (verified record)
               (reviewTime record) (reviewerID record) (asin record) (style record)
               (reviewerName record) (reviewText record) (Some text) (unixReviewTime record)
  end.

(** [target_record["overall"] = value] *)
Definition set_overall (record : Review) (value : spec_float) : Review :=
  mkReview (ReviewID record) (Some value) (vote record) (verified record)
           (reviewTime record) (reviewerID record) (asin record) (style record)
           (reviewerName record) (reviewText record) (summary record) (unixReviewTime record).

(** The search loop: the position of the first record whose [ReviewID] is
    the target. *)
Fixpoint find_record (record_collection : list Review) (target_record_id : string)
    : option nat :=
  match record_collection with
  | [] => None
  | rec :: rest =>
      if decide (ReviewID rec = Some target_record_id) then Some 0%nat
      else option_map S (find_record rest target_record_id)
  end.

Inductive ModifyReport :=
| Modify_Usage
| Modify_InvalidAction
| Modify_DatasetNotFound
| Modify_LoadError
| Modify_RecordNotFound
| Modify_FieldNotModifiable
| Modify_Inserted (generated_record_id : string)
| Modify_Modified (mapped_field : ModifiableField)
| Modify_Deleted
| Modify_DeletionCancelled.

(** The [--insert] branch: the new record and its identifier. *)
Definition insert_record (record_collection : list Review) (inputs : list string)
    (draws : InsertDraws) : Interrupt + (string * Review) :=
  match id_number_list record_collection with
  | inl error => inl (Uncaught error)
  | inr numbers =>
      let generated_record_id := String "R" (format_06d_int (next_id_value numbers)) in
      match ask_overall_or_default inputs with
      | inl stop => inl stop
      | inr (overall_value, inputs) =>
          match inputs with
          | vote_line :: name_line :: text_line :: summary_line :: _ =>
              inr (generated_record_id,
                   mkReview (Some generated_record_id) (Some overall_value)
                            (Some (PyStr.strip vote_line)) (Some false)
                            (Some (formatted_time draws))
                            (Some (generated_reviewer_id draws))
                            (Some (generated_asin draws)) (Some [])
                            (Some (PyStr.strip name_line)) (Some (PyStr.strip text_line))
                            (Some (PyStr.strip summary_line))
                            (Some (unix_time_value draws)))
          | _ => inl EOFError
          end
      end
  end.

(** The [--modify] branch on the record found: which field was changed and
    the record after the change. *)
Definition modify_record (target_record : Review) (inputs : list string)
    : Interrupt + option (ModifiableField * Review) :=
  match read_line inputs with
  | inl stop => inl stop
  | inr (answer, inputs) =>
      let field_input :=
        remove_char "-" (remove_char " " (PyFloat.lowercase (PyStr.strip answer))) in
      match field_mapping field_input with
      | None => inr None
      | Some Field_overall =>
          match ask_overall inputs with
          | inl stop => inl stop
          | inr (value, _) => inr (Some (Field_overall, set_overall target_record value))
          end
      | Some mapped_field =>
          match read_line inputs with
          | inl stop => inl stop
          | inr (line, _) =>
              inr (Some (mapped_field,
                         set_text_field target_record mapped_field (PyStr.strip line)))
          end
      end
  end.

(** [perform_dataset_update]: the report and the world it leaves.  The
    record found by the search loop is an element of the list itself, and
    no record before it has its identifier, so that [list.remove] takes the
    list element at the position found. *)
Definition perform_dataset_update (parameters : list string) (inputs : list string)
    (draws : InsertDraws) (w : World) : Interrupt + (ModifyReport * World) :=
  match parameters with
  | dataset_identifier :: modification_action :: rest =>
      if negb (String.eqb modification_action "--insert"
               || String.eqb modification_action "--modify"
               || String.eqb modification_action "--delete")
      then inr (Modify_InvalidAction, w)
      else if negb (String.eqb modification_action "--insert")
                && match rest with [] => true | _ :: _ => false end
      then inr (Modify_Usage, w)
      else
        let target_record_id := hd EmptyString rest in
        match processed_files w dataset_identifier with
        | None => inr (Modify_DatasetNotFound, w)
        | Some None => inr (Modify_LoadError, w)
        | Some (Some record_collection) =>
            if String.eqb modification_action "--insert" then
              match insert_record record_collection inputs draws with
              | inl stop => inl stop
              | inr (generated_record_id, new_record_data) =>
                  inr (Modify_Inserted generated_record_id,
                       with_processed w dataset_identifier
                                      (record_collection ++ [new_record_data]))
              end
            else
              match find_record record_collection target_record_id with
              | None => inr (Modify_RecordNotFound, w)
              | Some position =>
                  let target_record := nth position record_collection
                                           (mkReview None None None None None None None
                                                     None None None None None) in
                  if String.eqb modification_action "--modify" then
                    match modify_record target_record inputs with
                    | inl stop => inl stop
                    | inr None => inr (Modify_FieldNotModifiable, w)
                    | inr (Some (mapped_field, changed)) =>
                        inr (Modify_Modified mapped_field,
                             with_processed w dataset_identifier
                                            (<[position := changed]> record_collection))
                    end
                  else
                    match read_line inputs with
                    | inl stop => inl stop
                    | inr (confirmation, _) =>
                        if String.eqb (PyFloat.lowercase confirmation) "yes" then
                          inr (Modify_Deleted,
                               with_processed w dataset_identifier
                                              (delete position record_collection))
                        else
                          inr (Modify_DeletionCancelled,
                               with_processed w dataset_identifier record_collection)
                    end
              end
        end
  | _ => inr (Modify_Usage, w)
  end.

(** ** Sample data

    Concrete inputs on which the theorems below are run: two toy digest
    functions, a few reviews, and small worlds. *)

Definition sample_record_hash (record : Review) : string :=
  "h(" +:+ default EmptyString (ReviewID record) +:+ ")".

Definition sample_combine (left_digest right_digest : string) : string :=
  "(" +:+ left_digest +:+ "+" +:+ right_digest +:+ ")".

Definition sample_review (id reviewer product : string) (time : Z) : Review :=
  mkReview (Some id) None None None None (Some reviewer) (Some product) None None None None
           (Some time).

Definition review_0 : Review := sample_review "R000000" "A1" "B1" 100.
Definition review_1 : Review := sample_review "R000001" "A2" "B1" 200.
Definition review_2 : Review := sample_review "R000002" "A3" "B2" 300.

(** A raw line as the dataset has them: no identifier yet, padded text. *)
Definition raw_review (reviewer product : string) (time : Z) : Review :=
  mkReview None None (Some " 3 ") None None (Some reviewer) (Some product) None None None None
           (Some time).

(** Eleven raw lines with ten distinct keys: the last repeats the first,
    up to blanks around the reviewer. *)
Definition sample_batch : list Review :=
  [raw_review "A0" "B" 1; raw_review "A1" "B" 1; raw_review "A2" "B" 1;
   raw_review "A3" "B" 1; raw_review "A4" "B" 1; raw_review "A5" "B" 1;
   raw_review "A6" "B" 1; raw_review "A7" "B" 1; raw_review "A8" "B" 1;
   raw_review "A9" "B" 1; raw_review " A0 " "B" 1].

(** A snapshot as construct-tree writes it for [review_0; review_1]. *)
Definition sample_metadata : gmap string json_value :=
  list_to_map [("timestamp", JStr "2024-05-01T10:00:00");
               ("root_hash", JStr "(h(R000000)+h(R000001))");
               ("record_count", JInt 2);
               ("dataset", JStr "ds");
               ("tree_height", JInt 2)].

Definition sample_files (name : string) : option (option (list Review)) :=
  if String.eqb name "ds" then Some (Some [review_0; review_1]) else None.

Definition sample_raw (name : string) : option (list Review) :=
  if String.eqb name "ds" then Some [review_0; review_1] else None.

(** A world with one earlier snapshot, version 1.0. *)
Definition sample_world : World :=
  mkWorld sample_raw sample_files
          (Some [("ds_root_v1.0.json", JsonObject sample_metadata)])
          "2024-05-02T09:30:00" 4096.

(** The snapshot a construct-tree run writes in [sample_world]. *)
Definition sample_new_metadata : gmap string json_value :=
  list_to_map [("timestamp", JStr "2024-05-02T09:30:00");
               ("root_hash", JStr "(h(R000000)+h(R000001))");
               ("record_count", JInt 2);
               ("dataset", JStr "ds");
               ("tree_height", JInt 2)].

(** A world whose only snapshot carries the version [inf], which [float]
    reads as infinity. *)
Definition infinite_world : World :=
  mkWorld sample_raw sample_files
          (Some [("ds_root_vinf.json", JsonObject sample_metadata)])
          "2024-05-02T09:30:00" 4096.

(** A world whose only snapshot carries the version [2 ^ 50]. *)
Definition huge_world : World :=
  mkWorld sample_raw sample_files
          (Some [("ds_root_v1125899906842624.0.json", JsonObject sample_metadata)])
          "2024-05-02T09:30:00" 4096.


(** A world with a processed dataset and no roots directory yet. *)
Definition fresh_world : World :=
  mkWorld sample_raw sample_files None "2024-05-02T09:30:00" 4096.

(** A world whose only snapshot of [ds] has a version segment that is no
    number. *)
Definition unversioned_world : World :=
  mkWorld sample_raw sample_files
          (Some [("ds_root_vlatest.json", JsonObject sample_metadata);
                 ("other_root_v1.0.json", JsonObject sample_metadata)])
          "2024-05-02T09:30:00" 4096.

(** A world whose latest snapshot of [ds] holds no JSON. *)
Definition malformed_world : World :=
  mkWorld sample_raw sample_files
          (Some [("ds_root_v1.0.json", Malformed)])
          "2024-05-02T09:30:00" 4096.


Definition sample_draws : InsertDraws :=
  mkDraws "A1B2C3D4E5F6G" "B000000001" "05 02, 2024" 1714642200.


(** ** The hash tree and the commands built on it

    The two hashing methods of [IntegrityTreeStructure] are parameters: the
    claims hold for every digest function. *)

Section Engine.

Variable generate_record_hash : Review -> string.
Variable combine_child_hashes : string -> string -> string.

(** *** crypto_hash_tree.py *)

(** Modelled from the spec: the leaf of one record (crypto_hash_tree.py is
    not among the sources); its digest is the digest of the encoded record. *)
Definition make_leaf (record : Review) : TreeVertex :=
  Vertex (generate_record_hash record) None None.

(** Modelled from the spec: the parent of a pair, by the node combiner. *)
Definition make_parent (left_vertex right_vertex : TreeVertex) : TreeVertex :=
  Vertex (combine_child_hashes (vertex_hash left_vertex) (vertex_hash right_vertex))
         (Some left_vertex) (Some right_vertex).

(** Modelled from the spec: one reduction round; consecutive pairs, left to
    right, a trailing unpaired vertex paired with itself. *)
Fixpoint pair_level (level : list TreeVertex) : list TreeVertex :=
  match level with
  | left_vertex :: right_vertex :: rest => make_parent left_vertex right_vertex :: pair_level rest
  | [last] => [make_parent last last]
  | [] => []
  end.

Lemma pair_level_length (level : list TreeVertex) :
  length (pair_level level) = Nat.div2 (S (length level)).
Proof.
  enough (H : length (pair_level level) = Nat.div2 (S (length level))
              /\ forall v, length (pair_level (v :: level)) = Nat.div2 (S (S (length level))))
    by apply H.
  induction level as [|a rest [IH1 IH2]]; split; try reflexivity.
  - apply IH2.
  - intros v. cbn [pair_level length]. rewrite IH1. reflexivity.
Qed.

(** Modelled from the spec: pairwise reduction repeated until one vertex
    remains; the result is that vertex and the number of rounds. *)
Equations? reduce_levels (level : list TreeVertex) (rounds : nat) : option (TreeVertex * nat)
  by wf (length level) lt :=
  reduce_levels [] rounds := None;
  reduce_levels [apex] rounds := Some (apex, rounds);
  reduce_levels (first :: second :: rest) rounds :=
    reduce_levels (pair_level (first :: second :: rest)) (S rounds).
Proof.
  rewrite pair_level_length. simpl.
  generalize (length rest). intros n.
  induction n as [n IH] using lt_wf_ind.
  destruct n as [|[|n]]; simpl; try lia.
  specialize (IH n ltac:(lia)). simpl in IH. lia.
Qed.

(** Modelled from the spec: [Build].  An empty record sequence is refused
    with [EmptyInputError] and leaves the object as it was; otherwise the
    object holds the leaves and the apex, and the call returns the apex
    digest and the traced peak memory. *)
Definition build_complete_tree (self : IntegrityTreeStructure) (peak : N)
    (record_set : list Review) : Raises (string * N) * IntegrityTreeStructure :=
  let terminals := map make_leaf record_set in
  match reduce_levels terminals 0 with
  | None => (raise EmptyInputError, self)
  | Some (apex, _) => (ret (vertex_hash apex, peak), mkTree terminals (Some apex))
  end.

(** Modelled from the spec: the number of reduction rounds of a build. *)
Definition reduction_rounds (record_set : list Review) : option nat :=
  option_map snd (reduce_levels (map make_leaf record_set) 0).

(** *** command_interface.py *)

(** The recursion of [compute_tree_height] on a vertex that is there; the
    test [if not vertex] on each child is the inner [match]. *)
Fixpoint height_of_vertex (vertex : TreeVertex) : nat :=
  match vertex with
  | Vertex _ left_child right_child =>
      let left_height :=
        match left_child with Some child => height_of_vertex child | None => 0%nat end in
      let right_height :=
        match right_child with Some child => height_of_vertex child | None => 0%nat end in
      (1 + Nat.max left_height right_height)%nat
  end.

Definition compute_tree_height (vertex : option TreeVertex) : nat :=
  match vertex with
  | None => 0%nat
  | Some present => height_of_vertex present
  end.

Fixpoint count_of_vertex (vertex : TreeVertex) : nat :=
  match vertex with
  | Vertex _ left_child right_child =>
      let left_count :=
        match left_child with Some child => count_of_vertex child | None => 0%nat end in
      let right_count :=
        match right_child with Some child => count_of_vertex child | None => 0%nat end in
      (1 + left_count + right_count)%nat
  end.

Definition compute_vertex_count (vertex : option TreeVertex) : nat :=
  match vertex with
  | None => 0%nat
  | Some present => count_of_vertex present
  end.

(** The loop of [determine_next_version]: the versions of the files named
    [<prefix><float>.json]; a name whose middle part is no float is skipped. *)
Fixpoint collect_versions (filename_prefix : string) (directory_contents : list string)
    : list spec_float :=
  match directory_contents with
  | [] => []
  | filename :: rest =>
      if PyStr.startswith filename filename_prefix && PyStr.endswith filename ".json" then
        let version_string := PyStr.slice filename (String.length filename_prefix) 5 in
        match PyFloat.of_string version_string with
        | Some version_value => version_value :: collect_versions filename_prefix rest
        | None => collect_versions filename_prefix rest
        end
      else collect_versions filename_prefix rest
  end.

Definition determine_next_version (directory_contents : list string)
    (dataset_identifier : string) : spec_float :=
  let filename_prefix := dataset_identifier +:+ "_root_v" in
  match collect_versions filename_prefix directory_contents with
  | [] => PyFloat.one
  | first :: others => PyFloat.add (py_max_by id first others) PyFloat.one_tenth
  end.

(** [f'{dataset_name}_root_v{version_number:.1f}.json'] *)
Definition root_storage_name (dataset_name : string) (version_number : spec_float) : string :=
  dataset_name +:+ "_root_v" +:+ PyFloat.format_1f version_number +:+ ".json".

Inductive ConstructReport :=
| Construct_Usage
| Construct_NotLocated
| Construct_ReadError
| Construct_Failed
| Construct_Saved (root_storage_file : string) (apex_metadata : gmap string json_value).

(** [construct_verification_tree]: the report and the world it leaves. *)
Definition construct_verification_tree (parameters : list string) (w : World)
    : Raises ConstructReport * World :=
  match parameters with
  | [dataset_name] =>
      match processed_files w dataset_name with
      | None => (ret Construct_NotLocated, w)
      | Some None => (ret Construct_ReadError, w)
      | Some (Some record_set) =>
          match build_complete_tree new_tree (traced_peak w) record_set with
          | (inl error, _) => (raise error, w)
          | (inr (apex_hash, memory_consumed), hash_tree) =>
              if String.eqb apex_hash EmptyString then (ret Construct_Failed, w)
              else
                let leaf_count := length (terminal_list hash_tree) in
                let structure_height := compute_tree_height (apex_vertex hash_tree) in
                let storage_directory := default [] (roots_dir w) in
                let version_number :=
                  determine_next_version (listdir storage_directory) dataset_name in
                let root_storage_file := root_storage_name dataset_name version_number in
                let apex_metadata : gmap string json_value :=
                  list_to_map [("timestamp", JStr (clock w));
                               ("root_hash", JStr apex_hash);
                               ("record_count", JInt (Z.of_nat leaf_count));
                               ("dataset", JStr dataset_name);
                               ("tree_height", JInt (Z.of_nat structure_height))] in
                (ret (Construct_Saved root_storage_file apex_metadata),
                 with_roots w (write_file storage_directory root_storage_file
                                          (JsonObject apex_metadata)))
          end
      end
  | _ => (ret Construct_Usage, w)
  end.

(** *** integrity_checker.py *)

(** The loop that parses a version out of every candidate file name. *)
Fixpoint integrity_version_list (apex_file_collection : list string)
    : Raises (list (spec_float * string)) :=
  match apex_file_collection with
  | [] => ret []
  | filename :: rest =>
      let* after_marker := item (PyStr.split filename "_root_v") 1 in
      let* version_string := item (PyStr.split after_marker ".json") 0 in
      match PyFloat.of_string version_string with
      | Some version_value =>
          let* version_list := integrity_version_list rest in
          ret ((version_value, filename) :: version_list)
      | None => integrity_version_list rest
      end
  end.

Definition integrity_latest_file (roots : option directory) (dataset_identifier : string)
    : Raises (option string) :=
  match roots with
  | None => ret None
  | Some apex_storage_directory =>
      let apex_file_collection :=
        List.filter (fun filename =>
                       PyStr.startswith filename (dataset_identifier +:+ "_root_v")
                       && PyStr.endswith filename ".json")
                    (listdir apex_storage_directory) in
      let* version_list := integrity_version_list apex_file_collection in
      match version_list with
      | [] => ret None
      | first :: others => ret (Some (snd (py_max_by fst first others)))
      end
  end.

(** The stored metadata and its [root_hash], or nothing when there is no
    snapshot. *)
Definition integrity_stored_apex (roots : option directory) (dataset_identifier : string)
    : Raises (option (gmap string json_value * option json_value)) :=
  let* latest := integrity_latest_file roots dataset_identifier in
  match latest with
  | None => ret None
  | Some latest_version_file =>
      match read_file (default [] roots) latest_version_file with
      | Some (JsonObject stored_metadata) =>
          ret (Some (stored_metadata, stored_metadata !! "root_hash"))
      | Some NotAnObject => raise AttributeError
      | Some Malformed => raise JSONDecodeError
      | None => raise FileNotFoundError
      end
  end.

(** [datetime.fromisoformat] on the stored timestamp: a string that is no
    ISO date is kept as it is; any other value is a [TypeError]. *)
Definition display_creation_time (timestamp : option json_value) : Raises unit :=
  match timestamp with
  | None => ret tt
  | Some (JStr _) => ret tt
  | Some _ => raise TypeError
  end.

(** [f"{stored_entry_count:,}"] *)
Definition display_entry_count (stored_entry_count : json_value) : Raises unit :=
  match stored_entry_count with
  | JInt _ => ret tt
  | JStr _ => raise ValueError
  | JNull => raise TypeError
  end.

Inductive IntegrityReport :=
| Integrity_Usage
| Integrity_NoStoredApex
| Integrity_DatasetNotFound
| Integrity_ReadError
| Integrity_Confirmed
| Integrity_Compromised.

Definition execute_integrity_check (parameters : list string) (w : World)
    : Raises IntegrityReport :=
  match parameters with
  | [dataset_identifier] =>
      let* stored := integrity_stored_apex (roots_dir w) dataset_identifier in
      match stored with
      | Some (stored_metadata, Some stored_apex_digest) =>
          if negb (truthy stored_apex_digest) then ret Integrity_NoStoredApex
          else
            let* _ := display_creation_time (stored_metadata !! "timestamp") in
            let* _ := display_entry_count (default (JInt 0) (stored_metadata !! "record_count")) in
            match processed_files w dataset_identifier with
            | None => ret Integrity_DatasetNotFound
            | Some None => ret Integrity_ReadError
            | Some (Some current_record_set) =>
                let* built :=
                  fst (build_complete_tree new_tree (traced_peak w) current_record_set) in
                let current_apex_digest := fst built in
                if equals_str stored_apex_digest current_apex_digest
                then ret Integrity_Confirmed
                else ret Integrity_Compromised
            end
      | _ => ret Integrity_NoStoredApex
      end
  | _ => ret Integrity_Usage
  end.

(** *** proof_generator.py *)

Fixpoint locate_version_mapping (apex_file_list : list string)
    : Raises (list (spec_float * string)) :=
  match apex_file_list with
  | [] => ret []
  | filename :: rest =>
      let* after_marker := item (PyStr.split filename "_root_v") 1 in
      let* version_segment := item (PyStr.split after_marker ".json") 0 in
      match PyFloat.of_string version_segment with
      | Some version_number =>
          let* version_mapping := locate_version_mapping rest in
          ret ((version_number, filename) :: version_mapping)
      | None => locate_version_mapping rest
      end
  end.

Definition locate_latest_file (roots : option directory) (dataset_identifier : string)
    : Raises (option string) :=
  match roots with
  | None => ret None
  | Some apex_storage_dir =>
      let apex_file_list :=
        List.filter (fun filename =>
                       PyStr.startswith filename (dataset_identifier +:+ "_root_v")
                       && PyStr.endswith filename ".json")
                    (listdir apex_storage_dir) in
      let* version_mapping := locate_version_mapping apex_file_list in
      match version_mapping with
      | [] => ret None
      | first :: others => ret (Some (snd (py_max_by fst first others)))
      end
  end.

Definition locate_stored_apex (roots : option directory) (dataset_identifier : string)
    : Raises (option json_value) :=
  let* latest := locate_latest_file roots dataset_identifier in
  match latest with
  | None => ret None
  | Some most_recent_file =>
      match read_file (default [] roots) most_recent_file with
      | Some (JsonObject apex_metadata) => ret (apex_metadata !! "root_hash")
      | Some NotAnObject => raise AttributeError
      | Some Malformed => raise JSONDecodeError
      | None => raise FileNotFoundError
      end
  end.

(** The loop that recomputes the apex along the authentication path. *)
Fixpoint recompute_apex (recomputed_apex : string)
    (authentication_path : list (string * string)) : string :=
  match authentication_path with
  | [] => recomputed_apex
  | (direction_indicator, sibling_digest) :: rest =>
      if String.eqb direction_indicator "LEFT"
      then recompute_apex (combine_child_hashes recomputed_apex sibling_digest) rest
      else recompute_apex (combine_child_hashes sibling_digest recomputed_apex) rest
  end.

Inductive VerificationResult :=
| Authenticated
| AuthenticationFailed.

(** The validation stage of [locate_and_verify_record], from the terminal
    hash to the verdict.  Printing [stored_apex_hash[:16]] needs a string. *)
Definition verify_authentication_path (terminal_hash : string)
    (authentication_path : list (string * string)) (stored_apex_hash : json_value)
    : Raises VerificationResult :=
  let recomputed_apex := recompute_apex terminal_hash authentication_path in
  match stored_apex_hash with
  | JStr stored =>
      if String.eqb recomputed_apex stored then ret Authenticated
      else ret AuthenticationFailed
  | _ => raise TypeError
  end.

(** *** anomaly_detector.py *)

Fixpoint tampering_version_data (apex_files : list string)
    : Raises (list (spec_float * string)) :=
  match apex_files with
  | [] => ret []
  | apex_filename :: rest =>
      let* after_marker := item (PyStr.split apex_filename "_root_v") 1 in
      let* version_str := item (PyStr.split after_marker ".json") 0 in
      match PyFloat.of_string version_str with
      | Some version_num =>
          let* version_data := tampering_version_data rest in
          ret ((version_num, apex_filename) :: version_data)
      | None => tampering_version_data rest
      end
  end.

Definition tampering_latest_file (roots : option directory) (dataset_identifier : string)
    : Raises (option string) :=
  match roots with
  | None => ret None
  | Some apex_directory =>
      let apex_files :=
        List.filter (fun f =>
                       PyStr.startswith f (dataset_identifier +:+ "_root_v")
                       && PyStr.endswith f ".json")
                    (listdir apex_directory) in
      let* version_data := tampering_version_data apex_files in
      match version_data with
      | [] => ret None
      | first :: others => ret (Some (snd (py_max_by fst first others)))
      end
  end.

(** Here the file is read under [try ... except Exception: pass]: a file
    that cannot be read leaves the baseline unset. *)
Definition tampering_baseline_apex (roots : option directory) (dataset_identifier : string)
    : Raises (option json_value) :=
  let* latest := tampering_latest_file roots dataset_identifier in
  match latest with
  | None => ret None
  | Some latest_apex_file =>
      match read_file (default [] roots) latest_apex_file with
      | Some (JsonObject apex_metadata) => ret (apex_metadata !! "root_hash")
      | _ => ret None
      end
  end.

(** *** performance_analyzer.py *)

(** The verification loop of [execute_proof_benchmarks]. *)
Fixpoint benchmark_recompute_apex (recomputed_apex : string)
    (authentication_path : list (string * string)) : string :=
  match authentication_path with
  | [] => recomputed_apex
  | (direction, sibling_hash) :: rest =>
      if String.eqb direction "LEFT"
      then benchmark_recompute_apex (combine_child_hashes recomputed_apex sibling_hash) rest
      else benchmark_recompute_apex (combine_child_hashes sibling_hash recomputed_apex) rest
  end.

(** *** The specification's own words, for comparison *)

(** §4.6, one step of the fold: [Combine(running, sibling)] when the position
    is LEFT, [Combine(sibling, running)] otherwise. *)
Definition spec_verify_step (running : string) (entry : string * string) : string :=
  if String.eqb (fst entry) "LEFT"
  then combine_child_hashes running (snd entry)
  else combine_child_hashes (snd entry) running.

(** §4.6, [Verify(leafDigest, path, expectedApex)]. *)
Definition spec_Verify (leafDigest : string) (path : list (string * string))
    (expectedApex : string) : bool :=
  String.eqb (fold_left spec_verify_step path leafDigest) expectedApex.

(** The apex digest of a build result, the peak memory left out. *)
Definition apex_digest_of (result : Raises (string * N) * IntegrityTreeStructure)
    : Raises string :=
  let* returned := fst result in ret (fst returned).

(** Keeping the first occurrence of each composite key, in input order;
    [seen] holds the keys met so far. *)
Fixpoint first_occurrences (seen : list CompositeKey) (records : list Review) : list Review :=
  match records with
  | [] => []
  | record :: rest =>
      if decide (composite_key record ∈ seen) then first_occurrences seen rest
      else record :: first_occurrences (composite_key record :: seen) rest
  end.

(** Identifiers [R<index>], [R<index + 1>], ... given out in list order. *)
Fixpoint number_from (index : Z) (records : list Review) : list Review :=
  match records with
  | [] => []
  | record :: rest => set_ReviewID record (review_id index) :: number_from (index + 1) rest
  end.

(** The order of floats as a lexicographic order of integer triples; NaN,
    which compares with nothing, has no rank. *)
Definition float_rank (x : spec_float) : option (Z * Z * Z) :=
  match x with
  | S754_nan => None
  | S754_infinity true => Some (-2, 0, 0)
  | S754_finite true m e => Some (-1, - e, Z.neg m)
  | S754_zero _ => Some (0, 0, 0)
  | S754_finite false m e => Some (1, e, Z.pos m)
  | S754_infinity false => Some (2, 0, 0)
  end.

Definition rank_lt (a b : Z * Z * Z) : Prop :=
  let '(a1, a2, a3) := a in
  let '(b1, b2, b3) := b in
  a1 < b1 \/ (a1 = b1 /\ (a2 < b2 \/ (a2 = b2 /\ a3 < b3))).

(** The snapshot files of a dataset, as all three selectors filter them. *)
Definition is_snapshot_of (dataset_identifier filename : string) : bool :=
  PyStr.startswith filename (dataset_identifier +:+ "_root_v")
  && PyStr.endswith filename ".json".

(** The part of a file name between ['_root_v'] and ['.json']. *)
Definition version_segment (filename : string) : option string :=
  match PyStr.split filename "_root_v" with
  | _ :: after_marker :: _ => head (PyStr.split after_marker ".json")
  | _ => None
  end.

(** The version a snapshot file name carries, if its segment is a float. *)
Definition snapshot_version (filename : string) : option spec_float :=
  match version_segment filename with
  | Some segment => PyFloat.of_string segment
  | None => None
  end.

(** The files that carry a version, each with its version, in order. *)
Fixpoint versioned (files : list string) : list (spec_float * string) :=
  match files with
  | [] => []
  | filename :: rest =>
      match snapshot_version filename with
      | Some version => (version, filename) :: versioned rest
      | None => versioned rest
      end
  end.

(** The float nearest to [k / 10], as [float] reads the numeral. *)
Definition tenths (k : N) : spec_float := PyFloat.of_decimal false k (-1).

(** The one-decimal numbers from 0.0 to 1000.0, which include every
    version construct-tree writes in its first nine thousand runs on a
    dataset. *)
Definition one_decimal_version (v : spec_float) : Prop :=
  exists k : N, (k <= 10000)%N /\ v = tenths k.

(** The version written after [m] reads back as a number above [m]: [m + 0.1],
    printed with one decimal and read by [float], is greater than [m]. *)
Definition next_version_above (m : spec_float) : bool :=
  match m with
  | S754_nan => false
  | _ =>
      match PyFloat.of_string (PyFloat.format_1f (PyFloat.add m PyFloat.one_tenth)) with
      | Some written => PyFloat.gt written m
      | None => false
      end
  end.

(** The records [sanitize_and_normalize] keeps, before they are numbered:
    the first occurrence of every composite key among the cleaned records. *)
Definition kept_records (raw_records : list Review) : list Review :=
  first_occurrences [] (map (fun r => fst (sanitize_record r)) raw_records).

Definition absent {A} (field : option A) : Z :=
  match field with
  | Some _ => 0
  | None => 1
  end.

(** How many of the eleven default fields a raw record lacks. *)
Definition missing_count (record : Review) : Z :=
  absent (overall record) + absent (vote record) + absent (verified record)
  + absent (reviewTime record) + absent (reviewerID record) + absent (asin record)
  + absent (style record) + absent (reviewerName record) + absent (reviewText record)
  + absent (summary record) + absent (unixReviewTime record).

Fixpoint total_missing (raw_records : list Review) : Z :=
  match raw_records with
  | [] => 0
  | record :: rest => missing_count record + total_missing rest
  end.

(** A text field that [str.strip] leaves as it is. *)
Definition stripped (field : option string) : Prop :=
  exists text, field = Some text /\ PyStr.strip text = text.

(** A record with every field of the schema present and its text fields
    stripped. *)
Definition fully_sanitized (record : Review) : Prop :=
  overall record <> None /\ verified record <> None /\ style record <> None
  /\ unixReviewTime record <> None
  /\ stripped (vote record) /\ stripped (reviewTime record) /\ stripped (reviewerID record)
  /\ stripped (asin record) /\ stripped (reviewerName record) /\ stripped (reviewText record)
  /\ stripped (summary record).

(** A name without the character [_]. *)
Fixpoint without_underscore (s : string) : bool :=
  match s with
  | EmptyString => true
  | String c rest => negb (Ascii.eqb c "_") && without_underscore rest
  end.

(** A string of ASCII characters only.  On such strings [PyFloat.of_string]
    and [py_int] are what [float] and [int] do (beyond ASCII these also read
    other decimal digits and blanks), and a position counted in bytes is the
    position counted in characters. *)
Fixpoint is_ascii (s : string) : bool :=
  match s with
  | EmptyString => true
  | String c rest => (nat_of_ascii c <? 128)%nat && is_ascii rest
  end.

(** A name that is one path component on every platform: it holds no
    separator ([/], the backslash, [:]) and no NUL.  Joined to a directory,
    such a name is a file of that directory. *)
Fixpoint plain_name (s : string) : bool :=
  match s with
  | EmptyString => true
  | String c rest =>
      let n := nat_of_ascii c in
      negb ((n =? 47) || (n =? 92) || (n =? 58) || (n =? 0))%nat && plain_name rest
  end.


(** ** Theorems *)

(** *** The path verifier *)

Lemma recompute_apex_fold (running : string) (path : list (string * string)) :
  recompute_apex running path = fold_left spec_verify_step path running.
Proof.
  revert running. induction path as [|[direction sibling] rest IH]; intros running.
  - reflexivity.
  - cbn [recompute_apex fold_left]. unfold spec_verify_step at 2. cbn [fst snd].
    destruct (String.eqb direction "LEFT"); apply IH.
Qed.

Lemma benchmark_recompute_apex_fold (running : string) (path : list (string * string)) :
  benchmark_recompute_apex running path = fold_left spec_verify_step path running.
Proof.
  revert running. induction path as [|[direction sibling] rest IH]; intros running.
  - reflexivity.
  - cbn [benchmark_recompute_apex fold_left]. unfold spec_verify_step at 2. cbn [fst snd].
    destruct (String.eqb direction "LEFT"); apply IH.
Qed.

(** C1: for every leaf digest, authentication path and stored apex digest,
    both verification loops compute the left-to-right fold of the path from
    the leaf digest (combining the running value on the left when the
    direction is LEFT, on the right otherwise), and the record is reported
    authenticated exactly when that fold equals the stored digest. *)
Theorem path_verifier_is_the_fold (terminal_hash : string)
    (authentication_path : list (string * string)) (stored_apex_hash : string) :
  recompute_apex terminal_hash authentication_path
    = fold_left spec_verify_step authentication_path terminal_hash
  /\ benchmark_recompute_apex terminal_hash authentication_path
    = fold_left spec_verify_step authentication_path terminal_hash
  /\ (verify_authentication_path terminal_hash authentication_path (JStr stored_apex_hash)
        = inr Authenticated
      <-> fold_left spec_verify_step authentication_path terminal_hash = stored_apex_hash)
  /\ (verify_authentication_path terminal_hash authentication_path (JStr stored_apex_hash)
        = inr AuthenticationFailed
      <-> fold_left spec_verify_step authentication_path terminal_hash <> stored_apex_hash)
  /\ (verify_authentication_path terminal_hash authentication_path (JStr stored_apex_hash)
        = inr Authenticated
      <-> spec_Verify terminal_hash authentication_path stored_apex_hash = true).
Proof.
  unfold verify_authentication_path, spec_Verify.
  rewrite recompute_apex_fold, benchmark_recompute_apex_fold.
  set (folded := fold_left spec_verify_step authentication_path terminal_hash).
  destruct (String.eqb_spec folded stored_apex_hash) as [Heq|Hne].
  - repeat split; try reflexivity; try congruence; intros; try discriminate.
  - repeat split; try reflexivity; try congruence; intros; try discriminate.
Qed.

(** *** The tree builder *)

Lemma pair_level_nonempty (level : list TreeVertex) :
  level <> [] -> pair_level level <> [].
Proof.
  destruct level as [|a [|b rest]]; cbn; congruence.
Qed.

(** The reduction loop ends with a vertex on every non-empty level. *)
Lemma reduce_levels_total (level : list TreeVertex) (rounds : nat) :
  level <> [] -> exists apex total, reduce_levels level rounds = Some (apex, total).
Proof.
  funelim (reduce_levels level rounds); intros Hne.
  - congruence.
  - simp reduce_levels. eauto.
  - simp reduce_levels. apply H. apply pair_level_nonempty. discriminate.
Qed.

Lemma reduce_levels_empty_only (level : list TreeVertex) (rounds : nat) :
  reduce_levels level rounds = None -> level = [].
Proof.
  destruct level as [|v rest]; [reflexivity|].
  destruct (reduce_levels_total (v :: rest) rounds) as (apex & total & H); [discriminate|].
  rewrite H. discriminate.
Qed.

(** C4: the build fails, with [EmptyInputError] and the object untouched,
    exactly on the empty record sequence; every other sequence yields an
    apex digest, and a single record yields its own leaf digest. *)
Theorem build_fails_only_on_empty_input (self : IntegrityTreeStructure) (peak : N)
    (record_set : list Review) :
  (fst (build_complete_tree self peak record_set) = inl EmptyInputError <-> record_set = [])
  /\ (record_set = [] -> snd (build_complete_tree self peak record_set) = self)
  /\ (record_set <> [] ->
      exists apex_hash, fst (build_complete_tree self peak record_set) = inr (apex_hash, peak))
  /\ (forall record, record_set = [record] ->
      fst (build_complete_tree self peak record_set) = inr (generate_record_hash record, peak)).
Proof.
  unfold build_complete_tree. repeat split.
  - intros H. destruct (reduce_levels (map make_leaf record_set) 0) as [[apex total]|] eqn:E.
    + discriminate.
    + apply reduce_levels_empty_only in E. destruct record_set; [reflexivity|discriminate].
  - intros ->. reflexivity.
  - intros ->. reflexivity.
  - intros Hne.
    destruct (reduce_levels_total (map make_leaf record_set) 0) as (apex & total & E).
    + destruct record_set; [congruence|discriminate].
    + rewrite E. eauto.
  - intros record ->. cbn [map]. simp reduce_levels. reflexivity.
Qed.

(** *** Tree height *)

(** [compute_tree_height] unfolds as the source writes it. *)
Lemma compute_tree_height_equation (h : string) (left_child right_child : option TreeVertex) :
  compute_tree_height (Some (Vertex h left_child right_child))
  = (1 + Nat.max (compute_tree_height left_child) (compute_tree_height right_child))%nat.
Proof.
  destruct left_child, right_child; reflexivity.
Qed.

Lemma pair_level_height (h : nat) (level : list TreeVertex) :
  Forall (fun v => height_of_vertex v = h) level ->
  Forall (fun v => height_of_vertex v = S h) (pair_level level).
Proof.
  enough (H : (Forall (fun v => height_of_vertex v = h) level ->
               Forall (fun v => height_of_vertex v = S h) (pair_level level))
              /\ forall a, Forall (fun v => height_of_vertex v = h) (a :: level) ->
                           Forall (fun v => height_of_vertex v = S h) (pair_level (a :: level)))
    by apply H.
  induction level as [|b rest [IH1 IH2]]; split.
  - intros _. constructor.
  - intros a Ha. apply Forall_cons_1 in Ha as [Ha _].
    constructor; [|constructor]. cbn. rewrite Ha. f_equal. apply Nat.max_id.
  - apply IH2.
  - intros a Hall. apply Forall_cons_1 in Hall as [Ha Hall].
    pose proof Hall as Hall'. apply Forall_cons_1 in Hall' as [Hb Hrest].
    cbn [pair_level]. constructor.
    + cbn. rewrite Ha, Hb. f_equal. apply Nat.max_id.
    + apply IH1, Hrest.
Qed.

(** Every round adds one level under the apex. *)
Lemma reduce_levels_height (level : list TreeVertex) (rounds : nat) :
  forall h apex total,
    Forall (fun v => height_of_vertex v = h) level ->
    reduce_levels level rounds = Some (apex, total) ->
    (height_of_vertex apex + rounds = h + total)%nat.
Proof.
  funelim (reduce_levels level rounds); intros h' apex' total Hall Hred.
  - simp reduce_levels in Hred. discriminate.
  - simp reduce_levels in Hred. injection Hred as <- <-.
    apply Forall_cons_1 in Hall as [-> _]. reflexivity.
  - simp reduce_levels in Hred.
    specialize (H (S h') apex' total (pair_level_height _ _ Hall) Hred). lia.
Qed.

(** On [2 ^ k] vertices the loop runs [k] rounds. *)
Lemma reduce_levels_power_of_two (k : nat) :
  forall level rounds apex total,
    length level = (2 ^ k)%nat ->
    reduce_levels level rounds = Some (apex, total) ->
    total = (rounds + k)%nat.
Proof.
  induction k as [|k IH]; intros level rounds apex total Hlen Hred.
  - destruct level as [|v [|v' rest]]; try discriminate.
    simp reduce_levels in Hred. injection Hred as _ <-. lia.
  - destruct level as [|v [|v' rest]].
    + cbn in Hlen. pose proof (Nat.pow_nonzero 2 k). lia.
    + cbn [length] in Hlen. rewrite Nat.pow_succ_r' in Hlen.
      pose proof (Nat.pow_nonzero 2 k). lia.
    + simp reduce_levels in Hred.
      apply IH in Hred.
      * lia.
      * rewrite pair_level_length, Hlen, Nat.pow_succ_r'.
        apply Nat.div2_succ_double.
Qed.

Lemma leaves_have_height_one (record_set : list Review) :
  Forall (fun v => height_of_vertex v = 1%nat) (map make_leaf record_set).
Proof.
  induction record_set; constructor; [reflexivity|assumption].
Qed.

(** C3 (amended): the height [compute_tree_height] reports, and
    construct-tree stores as [tree_height], is the number of reduction
    rounds plus one, since it counts the vertices on a leaf-to-apex path; on
    [2 ^ k] records the build runs [k] rounds and the height is [k + 1]. *)
Theorem tree_height_is_rounds_plus_one (peak : N) (record_set : list Review) :
  record_set <> [] ->
  exists rounds,
    reduction_rounds record_set = Some rounds
    /\ compute_tree_height
         (apex_vertex (snd (build_complete_tree new_tree peak record_set))) = S rounds
    /\ (forall k, length record_set = (2 ^ k)%nat -> rounds = k /\ S rounds = S k)
    /\ (forall w dataset_name file metadata w',
          processed_files w dataset_name = Some (Some record_set) ->
          construct_verification_tree [dataset_name] w
            = (inr (Construct_Saved file metadata), w') ->
          metadata !! "tree_height" = Some (JInt (Z.of_nat (S rounds)))).
Proof.
  intros Hne.
  destruct (reduce_levels_total (map make_leaf record_set) 0) as (apex & rounds & E).
  { destruct record_set; [congruence|discriminate]. }
  pose proof (reduce_levels_height _ _ _ _ _ (leaves_have_height_one record_set) E) as Hh.
  exists rounds. unfold reduction_rounds, build_complete_tree.
  rewrite E. cbn [option_map snd apex_vertex compute_tree_height].
  repeat split.
  - lia.
  - apply (reduce_levels_power_of_two k) in E; [lia|]. rewrite length_map. assumption.
  - f_equal. apply (reduce_levels_power_of_two k) in E; [lia|]. rewrite length_map. assumption.
  - intros w dataset_name file metadata w' Hproc Hrun.
    unfold construct_verification_tree, build_complete_tree in Hrun.
    rewrite Hproc, E in Hrun. unfold ret in Hrun. cbv beta iota in Hrun.
    destruct (String.eqb (vertex_hash apex) ""); [discriminate|].
    injection Hrun as _ <- _.
    cbn [apex_vertex compute_tree_height].
    replace (height_of_vertex apex) with (S rounds) by lia.
    reflexivity.
Qed.

(** *** Snapshot files *)

Lemma read_write_same (dir : directory) (name : string) (content : file_content) :
  read_file (write_file dir name content) name = Some content.
Proof.
  induction dir as [|[n c] rest IH]; cbn.
  - rewrite String.eqb_refl. reflexivity.
  - destruct (String.eqb n name) eqn:E; cbn; rewrite E; [reflexivity|exact IH].
Qed.

Lemma read_write_other (dir : directory) (name other : string) (content : file_content) :
  other <> name ->
  read_file (write_file dir name content) other = read_file dir other.
Proof.
  intros Hne. induction dir as [|[n c] rest IH]; cbn.
  - destruct (String.eqb_spec name other); [congruence|reflexivity].
  - destruct (String.eqb_spec n name) as [->|Hn]; cbn.
    + destruct (String.eqb_spec name other); [congruence|reflexivity].
    + rewrite IH. reflexivity.
Qed.

Lemma read_file_listed (dir : directory) (name : string) (content : file_content) :
  read_file dir name = Some content -> In name (listdir dir).
Proof.
  induction dir as [|[n c] rest IH]; cbn; [discriminate|].
  destruct (String.eqb_spec n name) as [->|Hn]; [left; reflexivity|].
  intros H. right. apply IH, H.
Qed.

(** C8: whenever construct-tree saves a snapshot, the saved object has
    exactly the keys [timestamp], [root_hash], [record_count], [dataset] and
    [tree_height]; [root_hash] is the apex digest the build returned for this
    run and [record_count] the number of terminal leaves of the built tree. *)
Theorem snapshot_has_the_five_keys (parameters : list string) (w w' : World)
    (file : string) (metadata : gmap string json_value) :
  construct_verification_tree parameters w = (inr (Construct_Saved file metadata), w') ->
  dom metadata = ({[ "timestamp"; "root_hash"; "record_count"; "dataset"; "tree_height" ]}
                  : gset string)
  /\ exists dataset_name record_set apex_hash peak hash_tree,
      parameters = [dataset_name]
      /\ processed_files w dataset_name = Some (Some record_set)
      /\ build_complete_tree new_tree (traced_peak w) record_set
         = (inr (apex_hash, peak), hash_tree)
      /\ metadata !! "root_hash" = Some (JStr apex_hash)
      /\ metadata !! "record_count"
         = Some (JInt (Z.of_nat (length (terminal_list hash_tree))))
      /\ length (terminal_list hash_tree) = length record_set
      /\ metadata !! "dataset" = Some (JStr dataset_name)
      /\ metadata !! "timestamp" = Some (JStr (clock w))
      /\ metadata !! "tree_height"
         = Some (JInt (Z.of_nat (compute_tree_height (apex_vertex hash_tree))))
      /\ exists dir, roots_dir w' = Some dir /\ read_file dir file = Some (JsonObject metadata).
Proof.
  intros Hrun. unfold construct_verification_tree in Hrun.
  destruct parameters as [|dataset_name [|? ?]]; try discriminate.
  destruct (processed_files w dataset_name) as [[record_set|]|] eqn:Hproc; try discriminate.
  destruct (build_complete_tree new_tree (traced_peak w) record_set)
    as [[error|[apex_hash peak]] hash_tree] eqn:Hbuild; try discriminate.
  destruct (String.eqb apex_hash ""); [discriminate|].
  injection Hrun as <- <- <-.
  split.
  - cbn [list_to_map foldr curry fst snd uncurry].
    rewrite !dom_insert_L, dom_empty_L. set_solver.
  - assert (Hleaves : length (terminal_list hash_tree) = length record_set).
    { unfold build_complete_tree in Hbuild.
      destruct (reduce_levels (map make_leaf record_set) 0) as [[apex total]|];
        [|discriminate].
      injection Hbuild as _ _ <-. cbn. apply length_map. }
    exists dataset_name, record_set, apex_hash, peak, hash_tree.
    repeat (split; [first [reflexivity | assumption]|]).
    eexists. split; [reflexivity|]. apply read_write_same.
Qed.

(** *** The integrity check *)

(** C2: once check-integrity holds a stored apex digest and has rebuilt the
    current one, it returns a report and raises nothing; the report is
    "confirmed" exactly when the two digest strings are equal and
    "compromised" exactly when they differ. *)
Theorem integrity_check_compares_digests (w : World) (dataset_identifier : string)
    (stored_metadata : gmap string json_value) (stored_apex_digest current_apex_digest : string)
    (current_record_set : list Review) (peak : N) :
  integrity_stored_apex (roots_dir w) dataset_identifier
    = inr (Some (stored_metadata, Some (JStr stored_apex_digest))) ->
  stored_apex_digest <> EmptyString ->
  display_creation_time (stored_metadata !! "timestamp") = inr tt ->
  display_entry_count (default (JInt 0) (stored_metadata !! "record_count")) = inr tt ->
  processed_files w dataset_identifier = Some (Some current_record_set) ->
  fst (build_complete_tree new_tree (traced_peak w) current_record_set)
    = inr (current_apex_digest, peak) ->
  exists report,
    execute_integrity_check [dataset_identifier] w = inr report
    /\ (report = Integrity_Confirmed <-> stored_apex_digest = current_apex_digest)
    /\ (report = Integrity_Compromised <-> stored_apex_digest <> current_apex_digest).
Proof.
  intros Hstored Hnonempty Htime Hcount Hproc Hbuild.
  unfold execute_integrity_check.
  rewrite Hstored. cbn [bind truthy].
  destruct (String.eqb_spec stored_apex_digest "") as [|_]; [contradiction|].
  cbn [negb]. rewrite Htime, Hcount, Hproc, Hbuild. cbn [bind fst equals_str].
  destruct (String.eqb_spec stored_apex_digest current_apex_digest) as [Heq|Hne].
  - exists Integrity_Confirmed. repeat split; intros; try congruence; try discriminate.
  - exists Integrity_Compromised. repeat split; intros; try congruence; try discriminate.
Qed.

(** *** Importing and sanitizing the dataset *)

Lemma progress_due_small (index total : Z) :
  0 <= total <= 9 -> progress_due index total = inl ZeroDivisionError.
Proof.
  intros H. unfold progress_due, py_mod.
  rewrite Z.div_small by lia. reflexivity.
Qed.

Lemma progress_due_large (index total : Z) :
  10 <= total -> exists due, progress_due index total = inr due.
Proof.
  intros H. unfold progress_due, py_mod.
  assert (0 < total / 10) by (apply Z.div_str_pos; lia).
  destruct (Z.eqb_spec (total / 10) 0); [lia|]. cbn. eauto.
Qed.

(** C9: a record count from 1 to 9 passes the range check of import-data,
    and on any source file with at least one line [load_and_process] then
    raises [ZeroDivisionError] at its first progress test, since
    [record_count // 10] is zero; import-data reports it as an import error
    and imports nothing. *)
Theorem small_import_divides_by_zero (source_file : list Review) (record_count : Z) :
  1 <= record_count <= 9 ->
  source_file <> [] ->
  load_and_process (Some source_file) record_count = inl ZeroDivisionError
  /\ forall w dataset_identifier count_text,
       py_int count_text = Some record_count ->
       raw_files w dataset_identifier = Some source_file ->
       import_dataset [dataset_identifier; count_text] w = (Import_Error ZeroDivisionError, w).
Proof.
  intros Hcount Hne.
  assert (Hload : load_and_process (Some source_file) record_count = inl ZeroDivisionError).
  { destruct source_file as [|record rest]; [congruence|].
    unfold load_and_process. cbn [import_lines].
    destruct (Z.leb_spec record_count 0); [lia|].
    rewrite progress_due_small by lia. reflexivity. }
  split; [exact Hload|].
  intros w dataset_identifier count_text Hint Hraw.
  unfold import_dataset. rewrite Hint.
  destruct (Z.ltb_spec record_count 1); [lia|].
  destruct (Z.ltb_spec 1500000 record_count); [lia|].
  cbn [orb]. rewrite Hraw, Hload. reflexivity.
Qed.

(** C10: on a list of one to nine raw records [sanitize_and_normalize]
    returns neither records nor statistics: its first progress test raises
    [ZeroDivisionError], since [record_total // 10] is zero. *)
Theorem small_sanitize_divides_by_zero (raw_records : list Review) :
  (1 <= length raw_records <= 9)%nat ->
  sanitize_and_normalize raw_records = inl ZeroDivisionError.
Proof.
  intros Hlen. destruct raw_records as [|record rest]; [cbn in Hlen; lia|].
  unfold sanitize_and_normalize. cbn [sanitize_loop].
  destruct (sanitize_record record) as [cleaned corrected].
  destruct (decide (composite_key cleaned ∈ (∅ : gset CompositeKey)));
    rewrite progress_due_small by lia; reflexivity.
Qed.

(** What the code does on the lists it does get through: the two loops
    compute [first_occurrences] and [number_from]. *)

Lemma sanitize_loop_large (raw_records : list Review) :
  forall index record_total fields_corrected (tracker : gset CompositeKey) seen deduplicated,
    10 <= record_total ->
    (forall key, key ∈ tracker <-> key ∈ seen) ->
    exists corrected,
      sanitize_loop raw_records index record_total fields_corrected tracker deduplicated
      = inr (corrected,
             deduplicated
               ++ first_occurrences seen (map (fun r => fst (sanitize_record r)) raw_records)).
Proof.
  induction raw_records as [|record rest IH];
    intros index record_total fields_corrected tracker seen deduplicated Htotal Hseen.
  - cbn. rewrite app_nil_r. eauto.
  - cbn [sanitize_loop map first_occurrences].
    destruct (sanitize_record record) as [cleaned corrected] eqn:Hclean. cbn [fst].
    destruct (progress_due_large index record_total Htotal) as [due Hdue].
    destruct (decide (composite_key cleaned ∈ tracker)) as [Hin|Hout].
    + rewrite Hdue. cbn [bind].
      destruct (decide (composite_key cleaned ∈ seen)) as [_|Hno]; [|apply Hseen in Hin; contradiction].
      apply IH; assumption.
    + rewrite Hdue. cbn [bind].
      destruct (decide (composite_key cleaned ∈ seen)) as [Hyes|_]; [apply Hseen in Hyes; contradiction|].
      destruct (IH (index + 1) record_total (fields_corrected + corrected)
                   ({[composite_key cleaned]} ∪ tracker) (composite_key cleaned :: seen)
                   (deduplicated ++ [cleaned]) Htotal) as [c Hc].
      * intros key. rewrite elem_of_union, elem_of_singleton, elem_of_cons, Hseen. reflexivity.
      * rewrite Hc, <- app_assoc. eauto.
Qed.

Lemma assign_ids_large (records : list Review) :
  forall index unique_record_count,
    10 <= unique_record_count ->
    assign_ids records index unique_record_count = inr (number_from index records).
Proof.
  induction records as [|record rest IH]; intros index total Htotal; [reflexivity|].
  cbn [assign_ids number_from].
  destruct (progress_due_large index total Htotal) as [due ->]. cbn [bind].
  rewrite IH by assumption. reflexivity.
Qed.

Lemma number_from_length (records : list Review) (index : Z) :
  length (number_from index records) = length records.
Proof.
  revert index. induction records as [|r rest IH]; intros index; cbn; [reflexivity|].
  rewrite IH. reflexivity.
Qed.

(** On at least ten raw records with at least ten distinct keys the function
    returns the first occurrences, numbered from zero, and the statistics. *)
Lemma sanitize_and_normalize_large (raw_records : list Review) :
  let kept := first_occurrences [] (map (fun r => fst (sanitize_record r)) raw_records) in
  (10 <= length raw_records)%nat ->
  (10 <= length kept)%nat ->
  exists corrected,
    sanitize_and_normalize raw_records
    = inr (number_from 0 kept,
           mkStatistics (Z.of_nat (length raw_records))
                        (Z.of_nat (length kept))
                        (Z.of_nat (length raw_records) - Z.of_nat (length kept))
                        corrected
                        (Z.of_nat (length kept))).
Proof.
  intros kept Hraw Hkept. unfold sanitize_and_normalize.
  destruct (sanitize_loop_large raw_records 0 (Z.of_nat (length raw_records)) 0 ∅ [] [])
    as [corrected Hloop]; [lia|set_solver|].
  rewrite Hloop. cbn [bind app]. fold kept.
  rewrite assign_ids_large by lia. cbn [bind].
  rewrite number_from_length. eauto.
Qed.

(** With ten raw records or more but fewer than ten distinct keys, it is
    the second loop that divides by zero. *)
Lemma few_keys_sanitize_divides_by_zero (raw_records : list Review) :
  let kept := first_occurrences [] (map (fun r => fst (sanitize_record r)) raw_records) in
  (10 <= length raw_records)%nat ->
  (1 <= length kept <= 9)%nat ->
  sanitize_and_normalize raw_records = inl ZeroDivisionError.
Proof.
  intros kept Hraw Hkept. unfold sanitize_and_normalize.
  destruct (sanitize_loop_large raw_records 0 (Z.of_nat (length raw_records)) 0 ∅ [] [])
    as [corrected Hloop]; [lia|set_solver|].
  rewrite Hloop. cbn [bind app]. fold kept.
  destruct kept as [|record rest]; [cbn in Hkept; lia|].
  cbn [assign_ids]. rewrite progress_due_small by lia. reflexivity.
Qed.

(** No input at all goes through as well: both loops are skipped. *)
Lemma sanitize_and_normalize_nil :
  sanitize_and_normalize [] = inr ([], mkStatistics 0 0 0 0 0).
Proof. reflexivity. Qed.

(** [first_occurrences] keeps one record per key, in input order, and loses
    no key. *)
Lemma first_occurrences_keys (records : list Review) :
  forall seen,
    NoDup (map composite_key (first_occurrences seen records))
    /\ (forall r, r ∈ first_occurrences seen records -> composite_key r ∉ seen)
    /\ first_occurrences seen records `sublist_of` records
    /\ (forall r, r ∈ records ->
          composite_key r ∈ seen
          \/ composite_key r ∈ map composite_key (first_occurrences seen records)).
Proof.
  induction records as [|record rest IH]; intros seen; cbn [first_occurrences].
  - repeat split; [constructor | intros r Hr; inversion Hr | constructor | intros r Hr; inversion Hr].
  - destruct (decide (composite_key record ∈ seen)) as [Hin|Hout].
    + destruct (IH seen) as (Hnd & Hfresh & Hsub & Hcover).
      repeat split; try assumption.
      * apply sublist_cons. assumption.
      * intros r Hr. apply elem_of_cons in Hr as [->|Hr]; [left; assumption|apply Hcover, Hr].
    + destruct (IH (composite_key record :: seen)) as (Hnd & Hfresh & Hsub & Hcover).
      repeat split.
      * cbn [map]. constructor; [|assumption].
        intros Hdup. apply list_elem_of_fmap in Hdup as (r & Hkey & Hr).
        apply Hfresh in Hr. apply Hr. rewrite Hkey. left.
      * intros r Hr. apply elem_of_cons in Hr as [->|Hr]; [assumption|].
        apply Hfresh in Hr. intros Hs. apply Hr. right. assumption.
      * apply sublist_skip. assumption.
      * intros r Hr. cbn [map]. apply elem_of_cons in Hr as [->|Hr].
        -- right. left.
        -- destruct (Hcover r Hr) as [Hs|Hk].
           ++ apply elem_of_cons in Hs as [->|Hs]; [right; left|left; assumption].
           ++ right. right. assumption.
Qed.

(** Printing with leading zeros loses nothing: the number can be read back. *)
Lemma format_06d_injective (n m : N) :
  PyStr.format_06d n = PyStr.format_06d m -> n = m.
Proof.
  assert (Hshape : forall k n, exists d,
             PyStr.zeros k +:+ PyStr.decimal n = NilEmpty.string_of_uint d
             /\ N.of_uint d = n).
  { intros k n0. induction k as [|k (d & Hd & Hv)].
    - exists (N.to_uint n0). split; [|apply DecimalN.Unsigned.of_to].
      cbn. unfold PyStr.decimal, NilZero.string_of_uint.
      destruct (N.to_uint n0) eqn:E; try reflexivity.
      destruct n0 as [|p]; [discriminate|].
      cbn in E. unfold Pos.to_uint in E.
      exfalso. pose proof (DecimalPos.Unsigned.of_to p) as Hp.
      unfold Pos.to_uint in Hp. rewrite E in Hp. discriminate.
    - exists (Decimal.D0 d). split; [cbn; rewrite <- Hd; reflexivity|exact Hv]. }
  intros H. unfold PyStr.format_06d in H.
  destruct (Hshape (6 - String.length (PyStr.decimal n))%nat n) as (d1 & H1 & V1).
  destruct (Hshape (6 - String.length (PyStr.decimal m))%nat m) as (d2 & H2 & V2).
  rewrite H1, H2 in H.
  assert (Some d1 = Some d2) as [= ->]
    by (rewrite <- (NilEmpty.usu d1), <- (NilEmpty.usu d2), H; reflexivity).
  congruence.
Qed.

Lemma review_id_injective (i j : Z) :
  0 <= i -> 0 <= j -> review_id i = review_id j -> i = j.
Proof.
  intros Hi Hj H. unfold review_id in H. injection H as H.
  apply format_06d_injective in H. lia.
Qed.

(** The identifiers given out are pairwise distinct, and the records are
    otherwise left as they were. *)
Lemma number_from_ids (records : list Review) :
  forall index,
    0 <= index ->
    NoDup (map ReviewID (number_from index records))
    /\ (forall r, r ∈ number_from index records ->
          exists j, index <= j /\ ReviewID r = Some (review_id j))
    /\ map composite_key (number_from index records) = map composite_key records.
Proof.
  induction records as [|record rest IH]; intros index Hindex; cbn [number_from map].
  - repeat split; [constructor|intros r Hr; inversion Hr].
  - destruct (IH (index + 1) ltac:(lia)) as (Hnd & Hids & Hkeys).
    repeat split.
    + constructor; [|assumption].
      intros Hdup. apply list_elem_of_fmap in Hdup as (r & Hid & Hr).
      destruct (Hids r Hr) as (j & Hj & Hrj).
      cbn [ReviewID set_ReviewID] in Hid. rewrite Hrj in Hid.
      assert (Hsame : review_id index = review_id j) by congruence.
      apply review_id_injective in Hsame; lia.
    + intros r Hr. apply elem_of_cons in Hr as [->|Hr].
      * exists index. split; [lia|reflexivity].
      * destruct (Hids r Hr) as (j & Hj & Hrj). exists j. split; [lia|assumption].
    + rewrite Hkeys. reflexivity.
Qed.

(** *** Facts about the Python built-ins *)

Lemma gt_rank (a b : spec_float) :
  PyFloat.gt a b = true <->
  exists ra rb, float_rank a = Some ra /\ float_rank b = Some rb /\ rank_lt rb ra.
Proof.
  unfold PyFloat.gt, SFltb, SFcompare.
  destruct a as [sa|sa| |sa ma ea], b as [sb|sb| |sb mb eb];
    try destruct sa; try destruct sb; cbn [float_rank];
    try (split; [intros Hgt; try discriminate; do 2 eexists; repeat split; cbn; lia
                | intros (ra & rb & Ha & Hb & Hlt); try discriminate;
                  injection Ha as <-; injection Hb as <-; cbn in Hlt; try reflexivity; lia]).
  all: change (Pos.compare_cont Eq mb ma) with (Pos.compare mb ma).
  all: destruct (Z.compare_spec eb ea) as [He|He|He];
    destruct (Pos.compare_spec mb ma) as [Hm|Hm|Hm]; cbn [CompOpp];
    (split; [intros Hgt; try discriminate; do 2 eexists; repeat split; cbn; lia
            | intros (ra & rb & Ha & Hb & Hlt); injection Ha as <-; injection Hb as <-;
              cbn in Hlt; try reflexivity; lia]).
Qed.

Lemma rank_lt_irrefl (a : Z * Z * Z) : ~ rank_lt a a.
Proof. destruct a as [[a1 a2] a3]. cbn. lia. Qed.

Lemma rank_lt_trans (a b c : Z * Z * Z) : rank_lt a b -> rank_lt b c -> rank_lt a c.
Proof. destruct a as [[a1 a2] a3], b as [[b1 b2] b3], c as [[c1 c2] c3]. cbn. lia. Qed.

Lemma rank_lt_total (a b : Z * Z * Z) : rank_lt a b \/ a = b \/ rank_lt b a.
Proof.
  destruct a as [[a1 a2] a3], b as [[b1 b2] b3]. cbn.
  destruct (Z.lt_total a1 b1) as [|[->|]]; [lia| |lia].
  destruct (Z.lt_total a2 b2) as [|[->|]]; [lia| |lia].
  destruct (Z.lt_total a3 b3) as [|[->|]]; [lia| |lia].
  right. left. reflexivity.
Qed.

Lemma gt_irrefl (a : spec_float) : PyFloat.gt a a = false.
Proof.
  destruct (PyFloat.gt a a) eqn:E; [|reflexivity].
  apply gt_rank in E as (ra & rb & Ha & Hb & Hlt).
  rewrite Ha in Hb. injection Hb as ->. destruct (rank_lt_irrefl _ Hlt).
Qed.

Lemma gt_trans (a b c : spec_float) :
  PyFloat.gt a b = true -> PyFloat.gt b c = true -> PyFloat.gt a c = true.
Proof.
  intros Hab Hbc.
  apply gt_rank in Hab as (ra & rb & Ha & Hb & Hlt1).
  apply gt_rank in Hbc as (rb' & rc & Hb' & Hc & Hlt2).
  rewrite Hb in Hb'. injection Hb' as <-.
  apply gt_rank. exists ra, rc. repeat split; try assumption.
  eapply rank_lt_trans; eassumption.
Qed.

(** What is above a number is above everything that number is not below,
    NaN apart. *)
Lemma gt_above_bound (top bound y : spec_float) :
  PyFloat.gt top bound = true -> PyFloat.gt y bound = false -> y <> S754_nan ->
  PyFloat.gt top y = true.
Proof.
  intros Htop Hy Hnan.
  apply gt_rank in Htop as (rt & rb & Ht & Hb & Hlt).
  destruct (float_rank y) as [ry|] eqn:Hry.
  - apply gt_rank. exists rt, ry. repeat split; try assumption.
    destruct (rank_lt_total ry rb) as [H|[->|H]].
    + eapply rank_lt_trans; eassumption.
    + assumption.
    + assert (PyFloat.gt y bound = true) by (apply gt_rank; eauto). congruence.
  - destruct y as [|[]| |[]]; cbn in Hry; congruence.
Qed.

(** [max] returns an element no other element is greater than. *)
Lemma py_max_by_greatest {A} (key : A -> spec_float) (others : list A) :
  forall first,
    In (py_max_by key first others) (first :: others)
    /\ forall x, In x (first :: others) ->
                 PyFloat.gt (key x) (key (py_max_by key first others)) = false.
Proof.
  unfold py_max_by.
  set (step := fun best candidate : A =>
                 if PyFloat.gt (key candidate) (key best) then candidate else best).
  assert (Hinv : forall first,
             In (fold_left step others first) (first :: others)
             /\ (forall x, PyFloat.gt (key x) (key first) = false ->
                           PyFloat.gt (key x) (key (fold_left step others first)) = false)
             /\ (forall x, In x others ->
                           PyFloat.gt (key x) (key (fold_left step others first)) = false)).
  { induction others as [|candidate rest IH]; intros first.
    - cbn. repeat split; [left; reflexivity|auto|contradiction].
    - cbn [fold_left]. destruct (IH (step first candidate)) as (Hin & Hmono & Hrest).
      assert (Hstep : forall x, PyFloat.gt (key x) (key first) = false ->
                                PyFloat.gt (key x) (key (step first candidate)) = false).
      { intros x Hx. unfold step.
        destruct (PyFloat.gt (key candidate) (key first)) eqn:Hc; [|exact Hx].
        destruct (PyFloat.gt (key x) (key candidate)) eqn:Hxc; [|reflexivity].
        rewrite (gt_trans _ _ _ Hxc Hc) in Hx. discriminate. }
      repeat split.
      + destruct Hin as [Hin|Hin]; [|right; right; exact Hin].
        rewrite <- Hin. unfold step.
        destruct (PyFloat.gt (key candidate) (key first)); cbn; auto.
      + intros x Hx. apply Hmono, Hstep, Hx.
      + intros x [<-|Hx]; [|apply Hrest, Hx].
        apply Hmono. unfold step.
        destruct (PyFloat.gt (key candidate) (key first)) eqn:Hc; [apply gt_irrefl|exact Hc]. }
  intros first. destruct (Hinv first) as (Hin & Hmono & Hrest).
  split; [exact Hin|].
  intros x [<-|Hx]; [apply Hmono, gt_irrefl|apply Hrest, Hx].
Qed.

Lemma app_cons (x : ascii) (a b : string) : String x a +:+ b = String x (a +:+ b).
Proof. reflexivity. Qed.

Lemma app_nil_l (b : string) : "" +:+ b = b.
Proof. reflexivity. Qed.

Lemma string_length_app (a b : string) :
  String.length (a +:+ b) = (String.length a + String.length b)%nat.
Proof.
  induction a as [|c a IH]; [reflexivity|].
  rewrite app_cons. cbn [String.length]. rewrite IH. reflexivity.
Qed.

Lemma string_app_assoc (a b c : string) : (a +:+ b) +:+ c = a +:+ b +:+ c.
Proof.
  induction a as [|x a IH]; [reflexivity|].
  rewrite !app_cons, IH. reflexivity.
Qed.

Lemma string_app_nil_r (a : string) : a +:+ "" = a.
Proof.
  induction a as [|x a IH]; [reflexivity|].
  rewrite app_cons, IH. reflexivity.
Qed.

Lemma prefix_app (p s : string) : String.prefix p (p +:+ s) = true.
Proof.
  induction p as [|c p IH]; [destruct s; reflexivity|].
  rewrite app_cons. cbn [String.prefix].
  destruct (ascii_dec c c); [exact IH|congruence].
Qed.

Lemma prefix_split (p s : string) :
  String.prefix p s = true -> exists rest, s = p +:+ rest.
Proof.
  revert s. induction p as [|c p IH]; intros s H.
  - exists s. reflexivity.
  - destruct s as [|d s]; cbn [String.prefix] in H; [discriminate|].
    destruct (ascii_dec c d) as [->|]; [|discriminate].
    destruct (IH s H) as [rest ->]. exists rest. reflexivity.
Qed.

Lemma substring_prefix (b c : string) :
  substring 0 (String.length b) (b +:+ c) = b.
Proof.
  induction b as [|x b IH]; [destruct c; reflexivity|].
  rewrite app_cons. cbn [String.length substring]. rewrite IH. reflexivity.
Qed.

Lemma substring_middle (a b c : string) :
  substring (String.length a) (String.length b) (a +:+ b +:+ c) = b.
Proof.
  induction a as [|x a IH]; [exact (substring_prefix b c)|].
  rewrite app_cons. cbn [String.length substring]. exact IH.
Qed.

Lemma startswith_app (p s : string) : PyStr.startswith (p +:+ s) p = true.
Proof. apply prefix_app. Qed.

Lemma endswith_app (a suffix : string) : PyStr.endswith (a +:+ suffix) suffix = true.
Proof.
  unfold PyStr.endswith. rewrite string_length_app.
  replace (String.length a + String.length suffix - String.length suffix)%nat
    with (String.length a) by lia.
  pose proof (substring_middle a suffix "") as Hmid.
  rewrite string_app_nil_r in Hmid. rewrite Hmid, String.eqb_refl.
  destruct (Nat.leb_spec (String.length suffix) (String.length a + String.length suffix));
    [reflexivity|lia].
Qed.

Lemma slice_middle (p v : string) :
  PyStr.slice (p +:+ v +:+ ".json") (String.length p) 5 = v.
Proof.
  unfold PyStr.slice. rewrite !string_length_app. cbn [String.length].
  replace (String.length p + (String.length v + 5) - 5 - String.length p)%nat
    with (String.length v) by lia.
  apply substring_middle.
Qed.

Lemma split_scan_nonempty (sep s : string) :
  forall skip cur, PyStr.split_scan sep skip cur s <> [].
Proof.
  induction s as [|c s IH]; intros skip cur; cbn [PyStr.split_scan]; [discriminate|].
  destruct skip; [|apply IH].
  destruct (String.prefix sep (String c s)); [discriminate|apply IH].
Qed.

(** A string that holds the separator splits into at least two pieces. *)
Lemma split_has_second_piece (sep before after : string) :
  sep <> EmptyString ->
  exists piece, item (PyStr.split (before +:+ sep +:+ after) sep) 1 = inr piece.
Proof.
  intros Hsep. unfold PyStr.split. generalize EmptyString as cur.
  assert (Hsecond : forall (cur : string) (pieces : list string),
             pieces <> [] -> exists piece, item (cur :: pieces) 1 = inr piece).
  { intros cur [|piece pieces] H; [congruence|]. exists piece. reflexivity. }
  induction before as [|c before IH]; intros cur.
  - rewrite app_nil_l. destruct sep as [|x sep']; [congruence|].
    pose proof (prefix_app (String x sep') after) as Hprefix.
    rewrite app_cons in *. cbn [PyStr.split_scan]. rewrite Hprefix.
    apply Hsecond, split_scan_nonempty.
  - rewrite app_cons. cbn [PyStr.split_scan].
    destruct (String.prefix sep (String c (before +:+ sep +:+ after))).
    + apply Hsecond, split_scan_nonempty.
    + apply IH.
Qed.

Lemma split_has_first_piece (s sep : string) :
  exists piece, item (PyStr.split s sep) 0 = inr piece.
Proof.
  unfold PyStr.split.
  destruct (PyStr.split_scan sep 0 "" s) as [|piece pieces] eqn:E.
  - destruct (split_scan_nonempty _ _ _ _ E).
  - exists piece. reflexivity.
Qed.

(** *** Choosing the latest snapshot *)

Lemma candidate_has_marker (dataset_identifier : string) (files : list string) :
  Forall (fun f => exists before after, f = before +:+ "_root_v" +:+ after)
         (List.filter (fun filename =>
                         PyStr.startswith filename (dataset_identifier +:+ "_root_v")
                         && PyStr.endswith filename ".json") files).
Proof.
  apply List.Forall_forall. intros f Hf. apply filter_In in Hf as [_ Hf].
  apply andb_prop in Hf as [Hstart _].
  apply prefix_split in Hstart as [rest ->].
  exists dataset_identifier, rest. apply string_app_assoc.
Qed.

(** With the marker in the name, the two [split]s find the segment. *)
Lemma version_segment_items (filename : string) :
  (exists before after, filename = before +:+ "_root_v" +:+ after) ->
  exists after_marker segment,
    item (PyStr.split filename "_root_v") 1 = inr after_marker
    /\ item (PyStr.split after_marker ".json") 0 = inr segment
    /\ version_segment filename = Some segment.
Proof.
  intros (before & after & ->).
  destruct (split_has_second_piece "_root_v" before after) as [after_marker H1]; [discriminate|].
  destruct (split_has_first_piece after_marker ".json") as [segment H2].
  exists after_marker, segment. repeat split; try assumption.
  unfold version_segment, item in *.
  destruct (PyStr.split (before +:+ "_root_v" +:+ after) "_root_v") as [|a [|b l]];
    cbn in H1; try discriminate.
  injection H1 as ->.
  destruct (PyStr.split after_marker ".json") as [|c l']; cbn in H2; [discriminate|].
  injection H2 as ->. reflexivity.
Qed.

Ltac version_loop :=
  let files := fresh "files" in
  let f := fresh "f" in
  let IH := fresh "IH" in
  let Hf := fresh "Hf" in
  let Hall := fresh "Hall" in
  intros files Hall; induction files as [|f files IH]; [reflexivity|];
  apply Forall_cons_1 in Hall as [Hf Hall];
  destruct (version_segment_items f Hf) as (after_marker & segment & H1 & H2 & H3);
  cbn [integrity_version_list locate_version_mapping tampering_version_data versioned];
  unfold snapshot_version; rewrite H1; cbn [bind]; rewrite H2; cbn [bind]; rewrite H3;
  destruct (PyFloat.of_string segment); rewrite (IH Hall); reflexivity.

Lemma integrity_version_list_spec :
  forall files,
    Forall (fun f => exists before after, f = before +:+ "_root_v" +:+ after) files ->
    integrity_version_list files = inr (versioned files).
Proof. version_loop. Qed.

Lemma locate_version_mapping_spec :
  forall files,
    Forall (fun f => exists before after, f = before +:+ "_root_v" +:+ after) files ->
    locate_version_mapping files = inr (versioned files).
Proof. version_loop. Qed.

Lemma tampering_version_data_spec :
  forall files,
    Forall (fun f => exists before after, f = before +:+ "_root_v" +:+ after) files ->
    tampering_version_data files = inr (versioned files).
Proof. version_loop. Qed.

Lemma in_versioned (files : list string) (version : spec_float) (filename : string) :
  In (version, filename) (versioned files)
  <-> In filename files /\ snapshot_version filename = Some version.
Proof.
  clear generate_record_hash combine_child_hashes.
  induction files as [|f files IH]; cbn [versioned In]; [tauto|].
  destruct (snapshot_version f) as [v|] eqn:E; cbn [In]; rewrite IH; split.
  - intros [[= <- <-]|[H1 H2]]; auto.
  - intros [[->|H1] H2]; [left; congruence|right; auto].
  - intros [H1 H2]; auto.
  - intros [[->|H1] H2]; [congruence|auto].
Qed.

(** [max] keeps a first element whose key is NaN, which nothing is greater
    than. *)
Lemma py_max_by_keeps_nan {A} (key : A -> spec_float) (others : list A) (first : A) :
  key first = S754_nan -> py_max_by key first others = first.
Proof.
  intros Hnan. unfold py_max_by.
  induction others as [|candidate others IH]; [reflexivity|].
  cbn [fold_left]. rewrite Hnan.
  assert (Hgt : PyFloat.gt (key candidate) S754_nan = false) by reflexivity.
  rewrite Hgt. exact IH.
Qed.

(** Among numbers, what is not greater is less or equal. *)
Lemma le_of_not_gt (a b : spec_float) :
  PyFloat.is_nan a = false -> PyFloat.is_nan b = false ->
  PyFloat.gt a b = false -> PyFloat.le a b = true.
Proof.
  unfold PyFloat.gt, PyFloat.le, SFltb, SFleb, SFcompare.
  destruct a as [sa|sa| |sa ma ea], b as [sb|sb| |sb mb eb];
    try destruct sa; try destruct sb; cbn [PyFloat.is_nan];
    intros Ha Hb Hgt; try reflexivity; try discriminate.
  all: change (Pos.compare_cont Eq mb ma) with (Pos.compare mb ma) in Hgt.
  all: change (Pos.compare_cont Eq ma mb) with (Pos.compare ma mb).
  all: rewrite (Z.compare_antisym eb ea), (Pos.compare_antisym mb ma).
  all: destruct (Z.compare eb ea); cbn [CompOpp] in Hgt |- *;
    try reflexivity; try discriminate.
  all: destruct (Pos.compare mb ma); cbn [CompOpp] in Hgt |- *;
    try reflexivity; discriminate.
Qed.

(** C7 (amended): on the same roots directory of ASCII file names the three
    selectors (check-integrity, locate, detect-tampering) return the same
    choice and raise nothing.  The chosen file is a snapshot of the dataset
    whose version segment is a float that no other snapshot's version is
    greater than; when no segment of the dataset is NaN it carries the
    greatest version, every other version being less than or equal to it;
    when the first snapshot that carries a float carries NaN, that file is
    chosen.  There is no choice exactly when no snapshot carries a float.
    When the chosen file holds a JSON object, all three load the same
    [root_hash] from it. *)
Theorem latest_snapshot_selectors_agree (roots : option directory)
    (dataset_identifier : string) :
  forallb is_ascii (listdir (default [] roots)) = true ->
  let candidates :=
    List.filter (is_snapshot_of dataset_identifier) (listdir (default [] roots)) in
  exists choice,
    integrity_latest_file roots dataset_identifier = inr choice
    /\ locate_latest_file roots dataset_identifier = inr choice
    /\ tampering_latest_file roots dataset_identifier = inr choice
    /\ match choice with
       | Some latest =>
           In latest candidates
           /\ exists version,
               snapshot_version latest = Some version
               /\ (forall other other_version,
                     In other candidates ->
                     snapshot_version other = Some other_version ->
                     PyFloat.gt other_version version = false)
               /\ ((forall other other_version,
                      In other candidates ->
                      snapshot_version other = Some other_version ->
                      PyFloat.is_nan other_version = false) ->
                   forall other other_version,
                     In other candidates ->
                     snapshot_version other = Some other_version ->
                     PyFloat.le other_version version = true)
       | None => forall other, In other candidates -> snapshot_version other = None
       end
    /\ (forall nan_file others,
          versioned candidates = (S754_nan, nan_file) :: others -> choice = Some nan_file)
    /\ forall latest metadata,
         choice = Some latest ->
         read_file (default [] roots) latest = Some (JsonObject metadata) ->
         integrity_stored_apex roots dataset_identifier
           = inr (Some (metadata, metadata !! "root_hash"))
         /\ locate_stored_apex roots dataset_identifier = inr (metadata !! "root_hash")
         /\ tampering_baseline_apex roots dataset_identifier = inr (metadata !! "root_hash").
Proof.
  intros _ candidates.
  destruct roots as [dir|].
  - assert (Hlatest :
      exists choice,
        integrity_latest_file (Some dir) dataset_identifier = inr choice
        /\ locate_latest_file (Some dir) dataset_identifier = inr choice
        /\ tampering_latest_file (Some dir) dataset_identifier = inr choice
        /\ choice = match versioned candidates with
                    | [] => None
                    | first :: others => Some (snd (py_max_by fst first others))
                    end).
    { unfold integrity_latest_file, locate_latest_file, tampering_latest_file.
      rewrite integrity_version_list_spec, locate_version_mapping_spec,
        tampering_version_data_spec by apply candidate_has_marker.
      cbn [bind]. fold (is_snapshot_of dataset_identifier).
      change (List.filter (is_snapshot_of dataset_identifier) (listdir dir)) with candidates.
      destruct (versioned candidates); eexists; repeat split; reflexivity. }
    destruct Hlatest as (choice & H1 & H2 & H3 & Hchoice).
    exists choice. repeat (split; [assumption|]).
    split.
    + subst choice. destruct (versioned candidates) as [|first others] eqn:Hversioned.
      * intros other Hother.
        destruct (snapshot_version other) as [v|] eqn:E; [|reflexivity].
        assert (Hin : In (v, other) (versioned candidates)) by (apply in_versioned; auto).
        rewrite Hversioned in Hin. destruct Hin.
      * destruct (py_max_by_greatest fst others first) as [Hin Hmax].
        rewrite <- Hversioned in Hin.
        destruct (py_max_by fst first others) as [version latest] eqn:Hbest.
        apply in_versioned in Hin as [Hcand Hversion]. cbn [snd].
        split; [exact Hcand|]. exists version. split; [exact Hversion|].
        assert (Hbelow : forall other other_version,
                   In other candidates ->
                   snapshot_version other = Some other_version ->
                   PyFloat.gt other_version version = false).
        { intros other other_version Hother Hov.
          assert (Hin' : In (other_version, other) (first :: others)).
          { rewrite <- Hversioned. apply in_versioned. auto. }
          apply Hmax in Hin'. exact Hin'. }
        split; [exact Hbelow|].
        intros Hnumbers other other_version Hother Hov.
        apply le_of_not_gt;
          [exact (Hnumbers other other_version Hother Hov)
          |exact (Hnumbers latest version Hcand Hversion)
          |exact (Hbelow other other_version Hother Hov)].
    + split.
      { intros nan_file others Hfirst. rewrite Hchoice, Hfirst.
        rewrite py_max_by_keeps_nan by reflexivity. reflexivity. }
      intros latest metadata -> Hread.
      unfold integrity_stored_apex, locate_stored_apex, tampering_baseline_apex.
      rewrite H1, H2, H3. cbn [bind]. rewrite Hread. repeat split; reflexivity.
  - exists None. cbn. repeat split; try reflexivity; try contradiction; intros; discriminate.
Qed.

(** *** Snapshot versions *)

(** Checked by running the float operations on each of the 10001 numbers. *)
Lemma tenths_next_version_above (k : N) :
  (k <= 10000)%N -> next_version_above (tenths k) = true.
Proof.
  intros Hk.
  assert (Hall : forallb (fun n => next_version_above (tenths (N.of_nat n))) (seq 0 (N.to_nat 10001)) = true)
    by (vm_compute; reflexivity).
  rewrite forallb_forall in Hall.
  specialize (Hall (N.to_nat k)). rewrite N2Nat.id in Hall.
  apply Hall, in_seq. lia.
Qed.

Lemma collect_versions_In (filename_prefix : string) (names : list string) (v : spec_float) :
  In v (collect_versions filename_prefix names)
  <-> exists filename,
        In filename names
        /\ PyStr.startswith filename filename_prefix = true
        /\ PyStr.endswith filename ".json" = true
        /\ PyFloat.of_string (PyStr.slice filename (String.length filename_prefix) 5) = Some v.
Proof.
  clear generate_record_hash combine_child_hashes.
  induction names as [|f names IH]; cbn [collect_versions In].
  - split; [contradiction|intros (? & [] & _)].
  - destruct (PyStr.startswith f filename_prefix) eqn:Hs;
      destruct (PyStr.endswith f ".json") eqn:He; cbn [andb];
      try destruct (PyFloat.of_string (PyStr.slice f (String.length filename_prefix) 5))
        as [u|] eqn:Hv; cbn [In]; rewrite ?IH; split;
      try (intros (x & [->|Hx] & H1 & H2 & H3); [congruence|eauto 6]);
      try (intros (x & Hx & H1 & H2 & H3); exists x; auto).
    + intros [->|(x & Hx & H)]; [exists f; auto|exists x; tauto].
    + intros (x & [->|Hx] & H1 & H2 & H3); [left; congruence|right; eauto 6].
Qed.

Lemma root_storage_name_parts (dataset_name : string) (version : spec_float) :
  let filename_prefix := dataset_name +:+ "_root_v" in
  let file := root_storage_name dataset_name version in
  PyStr.startswith file filename_prefix = true
  /\ PyStr.endswith file ".json" = true
  /\ PyStr.slice file (String.length filename_prefix) 5 = PyFloat.format_1f version.
Proof.
  cbn zeta. unfold root_storage_name.
  rewrite <- (string_app_assoc dataset_name "_root_v").
  repeat split.
  - apply startswith_app.
  - rewrite <- string_app_assoc. apply endswith_app.
  - apply slice_middle.
Qed.

(** The version read back from the file name of the next version is above
    every version in the directory exactly when the greatest version is
    such that [next_version_above] holds of it; the name is then new. *)
Lemma next_version_is_fresh (names : list string) (dataset_name : string) :
  let filename_prefix := dataset_name +:+ "_root_v" in
  let versions := collect_versions filename_prefix names in
  let file := root_storage_name dataset_name (determine_next_version names dataset_name) in
  let survives :=
    forall first others,
      versions = first :: others -> next_version_above (py_max_by id first others) = true in
  Forall (fun v => PyFloat.is_nan v = false) versions ->
  ((exists parsed,
       PyFloat.of_string (PyStr.slice file (String.length filename_prefix) 5) = Some parsed
       /\ Forall (fun v => PyFloat.gt parsed v = true) versions)
   <-> survives)
  /\ (survives -> ~ In file names).
Proof.
  intros filename_prefix versions file survives Hnumbers.
  destruct (root_storage_name_parts dataset_name (determine_next_version names dataset_name))
    as (Hstart & Hend & Hslice).
  fold filename_prefix file in Hstart, Hend, Hslice.
  assert (Hiff : (exists parsed,
                     PyFloat.of_string (PyStr.slice file (String.length filename_prefix) 5)
                     = Some parsed
                     /\ Forall (fun v => PyFloat.gt parsed v = true) versions)
                 <-> survives).
  { rewrite Hslice. unfold survives, determine_next_version. fold filename_prefix versions.
    rewrite List.Forall_forall in Hnumbers.
    destruct versions as [|first others] eqn:Hversions.
    - split; [intros _ f o Hsome; discriminate|].
      intros _. exists PyFloat.one. split; [vm_compute; reflexivity|constructor].
    - destruct (py_max_by_greatest id others first) as [Hin Hmax].
      set (greatest := py_max_by id first others) in *.
      pose proof (Hnumbers greatest Hin) as Hgreatest.
      split.
      + intros (parsed & Hparse & Habove) f o Hsome. injection Hsome as <- <-.
        fold greatest. rewrite List.Forall_forall in Habove. specialize (Habove greatest Hin).
        unfold next_version_above.
        destruct greatest; try discriminate; rewrite Hparse; exact Habove.
      + intros Hsurvives. specialize (Hsurvives first others eq_refl).
        fold greatest in Hsurvives. unfold next_version_above in Hsurvives.
        assert (Hwritten : exists written,
                   PyFloat.of_string (PyFloat.format_1f (PyFloat.add greatest PyFloat.one_tenth))
                   = Some written
                   /\ PyFloat.gt written greatest = true).
        { destruct greatest; try discriminate;
            (destruct (PyFloat.of_string (PyFloat.format_1f (PyFloat.add _ PyFloat.one_tenth)))
               as [written|]; [|discriminate]);
            exists written; (split; [reflexivity|exact Hsurvives]). }
        destruct Hwritten as (written & Hparse & Habove).
        exists written. split; [exact Hparse|].
        apply List.Forall_forall. intros v Hv.
        eapply gt_above_bound; [exact Habove|exact (Hmax v Hv)|].
        intros ->. specialize (Hnumbers _ Hv). discriminate. }
  split; [exact Hiff|].
  intros Hsurvives. apply Hiff in Hsurvives as (parsed & Hparse & Habove).
  intros Hfile.
  assert (Hmember : In parsed versions).
  { apply collect_versions_In. exists file. auto. }
  rewrite List.Forall_forall in Habove. specialize (Habove parsed Hmember).
  rewrite gt_irrefl in Habove. discriminate.
Qed.

(** The one-decimal versions up to 1000.0 are among those after which the
    next version reads back above. *)
Lemma one_decimal_versions_survive (versions : list spec_float) :
  Forall one_decimal_version versions ->
  Forall (fun v => PyFloat.is_nan v = false) versions
  /\ forall first others,
       versions = first :: others -> next_version_above (py_max_by id first others) = true.
Proof.
  intros Hrange. rewrite List.Forall_forall in Hrange.
  assert (Hone : forall v, In v versions -> next_version_above v = true).
  { intros v Hv. destruct (Hrange v Hv) as (k & Hk & ->).
    apply tenths_next_version_above, Hk. }
  split.
  - apply List.Forall_forall. intros v Hv. specialize (Hone v Hv).
    destruct v; try reflexivity. discriminate.
  - intros first others ->. apply Hone.
    exact (proj1 (py_max_by_greatest id others first)).
Qed.

(** C6 (amended): in a roots directory of ASCII file names where no version
    found for the dataset is NaN, a successful construct-tree run on a
    dataset whose name is one path component saves its snapshot under the
    name built from the next version (1.0 when no version is found, the
    greatest one plus 0.1 otherwise, printed with one decimal).  The version
    read back from that name is above every version found exactly when
    there is none or the greatest one, [m], is such that [m + 0.1] printed
    with one decimal reads back above [m]; this is so when the versions are
    one-decimal numbers up to 1000.0.  The name is then the name of no
    existing file, and every existing file keeps its content. *)
Theorem next_snapshot_never_overwrites (w w' : World) (dataset_name file : string)
    (metadata : gmap string json_value) :
  construct_verification_tree [dataset_name] w = (inr (Construct_Saved file metadata), w') ->
  plain_name dataset_name = true ->
  forallb is_ascii (listdir (default [] (roots_dir w))) = true ->
  Forall (fun v => PyFloat.is_nan v = false)
         (collect_versions (dataset_name +:+ "_root_v") (listdir (default [] (roots_dir w)))) ->
  let existing := default [] (roots_dir w) in
  let versions := collect_versions (dataset_name +:+ "_root_v") (listdir existing) in
  let version_number := determine_next_version (listdir existing) dataset_name in
  let survives :=
    forall first others,
      versions = first :: others -> next_version_above (py_max_by id first others) = true in
  file = root_storage_name dataset_name version_number
  /\ (versions = [] -> version_number = PyFloat.one)
  /\ (forall first others,
        versions = first :: others ->
        version_number = PyFloat.add (py_max_by id first others) PyFloat.one_tenth)
  /\ ((exists parsed,
         PyFloat.of_string (PyStr.slice file (String.length (dataset_name +:+ "_root_v")) 5)
           = Some parsed
         /\ Forall (fun v => PyFloat.gt parsed v = true) versions)
      <-> survives)
  /\ (Forall one_decimal_version versions -> survives)
  /\ (survives ->
      ~ In file (listdir existing)
      /\ exists dir,
          roots_dir w' = Some dir
          /\ read_file dir file = Some (JsonObject metadata)
          /\ forall name content,
               read_file existing name = Some content -> read_file dir name = Some content).
Proof.
  intros Hrun _ _ Hnumbers existing versions version_number survives.
  unfold construct_verification_tree in Hrun.
  destruct (processed_files w dataset_name) as [[record_set|]|]; try discriminate.
  destruct (build_complete_tree new_tree (traced_peak w) record_set)
    as [[error|[apex_hash peak]] hash_tree]; try discriminate.
  destruct (String.eqb apex_hash ""); [discriminate|].
  injection Hrun as <- <- <-.
  fold existing version_number.
  destruct (next_version_is_fresh (listdir existing) dataset_name Hnumbers) as [Hparsed Hfresh].
  fold version_number in Hparsed, Hfresh.
  split; [reflexivity|].
  split; [intros Hnone; unfold version_number, determine_next_version;
          fold versions; rewrite Hnone; reflexivity|].
  split; [intros first others Hsome; unfold version_number, determine_next_version;
          fold versions; rewrite Hsome; reflexivity|].
  split; [exact Hparsed|].
  split; [intros Hrange; exact (proj2 (one_decimal_versions_survive versions Hrange))|].
  intros Hsurvives. specialize (Hfresh Hsurvives).
  split; [exact Hfresh|].
  eexists. split; [reflexivity|]. split; [apply read_write_same|].
  intros name content Hread. rewrite read_write_other; [exact Hread|].
  intros ->. apply Hfresh. eapply read_file_listed, Hread.
Qed.

(** ** Further properties of the code *)

(** *** Height and vertex count (command_interface.py) *)

Lemma vertex_count_bounds (vertex : TreeVertex) :
  (height_of_vertex vertex <= count_of_vertex vertex)%nat
  /\ (count_of_vertex vertex + 1 <= 2 ^ height_of_vertex vertex)%nat.
Proof.
  revert vertex. fix IH 1. intros [h left_child right_child].
  cbn [height_of_vertex count_of_vertex].
  assert (Hl : (match left_child with Some c => height_of_vertex c | None => 0 end
                <= match left_child with Some c => count_of_vertex c | None => 0 end)%nat
               /\ (match left_child with Some c => count_of_vertex c | None => 0 end + 1
                   <= 2 ^ match left_child with Some c => height_of_vertex c | None => 0 end)%nat)
    by (destruct left_child as [c|]; [apply IH|cbn; lia]).
  assert (Hr : (match right_child with Some c => height_of_vertex c | None => 0 end
                <= match right_child with Some c => count_of_vertex c | None => 0 end)%nat
               /\ (match right_child with Some c => count_of_vertex c | None => 0 end + 1
                   <= 2 ^ match right_child with Some c => height_of_vertex c | None => 0 end)%nat)
    by (destruct right_child as [c|]; [apply IH|cbn; lia]).
  clear IH.
  set (hl := match left_child with Some c => height_of_vertex c | None => 0%nat end) in *.
  set (hr := match right_child with Some c => height_of_vertex c | None => 0%nat end) in *.
  set (cl := match left_child with Some c => count_of_vertex c | None => 0%nat end) in *.
  set (cr := match right_child with Some c => count_of_vertex c | None => 0%nat end) in *.
  split; [lia|].
  assert (2 ^ hl <= 2 ^ Nat.max hl hr)%nat by (apply Nat.pow_le_mono_r; lia).
  assert (2 ^ hr <= 2 ^ Nat.max hl hr)%nat by (apply Nat.pow_le_mono_r; lia).
  change (2 ^ (1 + Nat.max hl hr))%nat with (2 * 2 ^ Nat.max hl hr)%nat. lia.
Qed.

(** X1: on any vertex graph [compute_vertex_count] is at least
    [compute_tree_height] and at most [2 ^ height - 1]; both are 0 exactly
    on the missing vertex. *)
Theorem vertex_count_between_height_bounds (vertex : option TreeVertex) :
  (compute_tree_height vertex <= compute_vertex_count vertex)%nat
  /\ (compute_vertex_count vertex + 1 <= 2 ^ compute_tree_height vertex)%nat
  /\ (compute_tree_height vertex = 0%nat <-> vertex = None)
  /\ (compute_vertex_count vertex = 0%nat <-> vertex = None).
Proof.
  destruct vertex as [present|]; cbn [compute_tree_height compute_vertex_count].
  - destruct (vertex_count_bounds present) as [H1 H2].
    repeat split; try assumption; try discriminate;
      destruct present; cbn [height_of_vertex count_of_vertex]; lia.
  - repeat split; cbn; lia.
Qed.

(** *** What [sanitize_and_normalize] returns (dataset_processor.py) *)

Lemma lstrip_head (s : string) :
  match PyStr.lstrip s with
  | EmptyString => True
  | String c _ => PyStr.is_space c = false
  end.
Proof.
  induction s as [|c s IH]; cbn [PyStr.lstrip]; [exact I|].
  destruct (PyStr.is_space c) eqn:E; [exact IH|exact E].
Qed.

Lemma rstrip_idempotent (s : string) : PyStr.rstrip (PyStr.rstrip s) = PyStr.rstrip s.
Proof.
  induction s as [|c s IH]; [reflexivity|].
  cbn [PyStr.rstrip]. destruct (PyStr.rstrip s) as [|k kept] eqn:E.
  - destruct (PyStr.is_space c) eqn:Hc; [reflexivity|].
    cbn [PyStr.rstrip]. rewrite Hc. reflexivity.
  - cbn [PyStr.rstrip] in *. rewrite IH. reflexivity.
Qed.

Lemma rstrip_keeps_head (c : ascii) (s : string) :
  PyStr.is_space c = false -> exists kept, PyStr.rstrip (String c s) = String c kept.
Proof.
  intros Hc. cbn [PyStr.rstrip].
  destruct (PyStr.rstrip s); [rewrite Hc|]; eauto.
Qed.

Lemma strip_idempotent (s : string) : PyStr.strip (PyStr.strip s) = PyStr.strip s.
Proof.
  unfold PyStr.strip. pose proof (lstrip_head s) as Hhead.
  destruct (PyStr.lstrip s) as [|c rest]; [reflexivity|].
  destruct (rstrip_keeps_head c rest Hhead) as [kept Hkept].
  rewrite Hkept. cbn [PyStr.lstrip]. rewrite Hhead, <- Hkept.
  apply rstrip_idempotent.
Qed.

Lemma sanitize_record_counts (record : Review) :
  snd (sanitize_record record) = missing_count record.
Proof.
  unfold sanitize_record, fill_missing_fields, missing_count, or_default, absent.
  destruct record as [id o v ve rt ri a st rn rx su ut]; cbn [overall vote verified reviewTime
    reviewerID asin style reviewerName reviewText summary unixReviewTime].
  destruct o, v, ve, rt, ri, a, st, rn, rx, su, ut; reflexivity.
Qed.

Lemma sanitize_record_sanitized (record : Review) :
  fully_sanitized (fst (sanitize_record record)).
Proof.
  assert (Hstrip : forall (field : option string),
             stripped (option_map PyStr.strip (fst (or_default field EmptyString)))).
  { intros [text|]; cbn; eexists; (split; [reflexivity|]);
      [apply strip_idempotent|reflexivity]. }
  unfold sanitize_record, fill_missing_fields.
  pose proof (Hstrip (vote record)). pose proof (Hstrip (reviewTime record)).
  pose proof (Hstrip (reviewerID record)). pose proof (Hstrip (asin record)).
  pose proof (Hstrip (reviewerName record)). pose proof (Hstrip (reviewText record)).
  pose proof (Hstrip (summary record)).
  destruct (or_default (overall record) (S754_zero false)) as [? ?] eqn:E1.
  destruct (or_default (vote record) "") as [? ?].
  destruct (or_default (verified record) false) as [? ?] eqn:E3.
  destruct (or_default (reviewTime record) "") as [? ?].
  destruct (or_default (reviewerID record) "") as [? ?].
  destruct (or_default (asin record) "") as [? ?].
  destruct (or_default (style record) []) as [? ?] eqn:E7.
  destruct (or_default (reviewerName record) "") as [? ?].
  destruct (or_default (reviewText record) "") as [? ?].
  destruct (or_default (summary record) "") as [? ?].
  destruct (or_default (unixReviewTime record) 0) as [? ?] eqn:E11.
  cbn [fst normalize_text_fields] in *. unfold fully_sanitized.
  cbn [overall vote verified reviewTime reviewerID asin style reviewerName reviewText
       summary unixReviewTime].
  unfold or_default in E1, E3, E7, E11.
  repeat split; try assumption.
  - destruct (overall record); injection E1 as <- _; discriminate.
  - destruct (verified record); injection E3 as <- _; discriminate.
  - destruct (style record); injection E7 as <- _; discriminate.
  - destruct (unixReviewTime record); injection E11 as <- _; discriminate.
Qed.

Lemma sanitize_loop_result (raw_records : list Review) :
  forall index record_total fields_corrected (tracker : gset CompositeKey) seen deduplicated,
    10 <= record_total ->
    (forall key, key ∈ tracker <-> key ∈ seen) ->
    sanitize_loop raw_records index record_total fields_corrected tracker deduplicated
    = inr (fields_corrected + total_missing raw_records,
           deduplicated
             ++ first_occurrences seen (map (fun r => fst (sanitize_record r)) raw_records)).
Proof.
  induction raw_records as [|record rest IH];
    intros index record_total fields_corrected tracker seen deduplicated Htotal Hseen.
  - cbn. rewrite app_nil_r, Z.add_0_r. reflexivity.
  - cbn [sanitize_loop map first_occurrences total_missing].
    rewrite <- (sanitize_record_counts record).
    destruct (sanitize_record record) as [cleaned corrected] eqn:Hclean. cbn [fst snd].
    destruct (progress_due_large index record_total Htotal) as [due Hdue].
    destruct (decide (composite_key cleaned ∈ tracker)) as [Hin|Hout].
    + rewrite Hdue. cbn [bind].
      destruct (decide (composite_key cleaned ∈ seen)) as [_|Hno];
        [|apply Hseen in Hin; contradiction].
      rewrite (IH _ _ _ tracker seen) by assumption. rewrite Z.add_assoc. reflexivity.
    + rewrite Hdue. cbn [bind].
      destruct (decide (composite_key cleaned ∈ seen)) as [Hyes|_];
        [apply Hseen in Hyes; contradiction|].
      rewrite (IH _ _ _ ({[composite_key cleaned]} ∪ tracker) (composite_key cleaned :: seen)).
      * rewrite <- app_assoc, Z.add_assoc. reflexivity.
      * assumption.
      * intros key. rewrite elem_of_union, elem_of_singleton, elem_of_cons, Hseen. reflexivity.
Qed.

Lemma sanitize_loop_small (raw_records : list Review) :
  forall index record_total fields_corrected (tracker : gset CompositeKey) deduplicated,
    raw_records <> [] ->
    0 <= record_total <= 9 ->
    sanitize_loop raw_records index record_total fields_corrected tracker deduplicated
    = inl ZeroDivisionError.
Proof.
  intros index record_total fields_corrected tracker deduplicated Hne Htotal.
  destruct raw_records as [|record rest]; [congruence|].
  cbn [sanitize_loop]. destruct (sanitize_record record) as [cleaned corrected].
  destruct (decide (composite_key cleaned ∈ tracker));
    rewrite progress_due_small by lia; reflexivity.
Qed.

Lemma kept_records_nonempty (raw_records : list Review) :
  raw_records <> [] -> kept_records raw_records <> [].
Proof.
  destruct raw_records as [|record rest]; [congruence|]. intros _.
  unfold kept_records. cbn [map first_occurrences].
  destruct (decide (composite_key (fst (sanitize_record record)) ∈ [])) as [Hin|_];
    [inversion Hin|discriminate].
Qed.

Lemma kept_records_length (raw_records : list Review) :
  (length (kept_records raw_records) <= length raw_records)%nat.
Proof.
  unfold kept_records.
  destruct (first_occurrences_keys (map (fun r => fst (sanitize_record r)) raw_records) [])
    as (_ & _ & Hsub & _).
  apply sublist_length in Hsub. rewrite length_map in Hsub. exact Hsub.
Qed.

(** Every way the function can end, by the size of its input. *)
Lemma sanitize_and_normalize_cases (raw_records : list Review) :
  let kept := kept_records raw_records in
  (raw_records = [] /\ sanitize_and_normalize raw_records = inr ([], mkStatistics 0 0 0 0 0))
  \/ (raw_records <> []
      /\ ((length raw_records < 10)%nat \/ (length kept < 10)%nat)
      /\ sanitize_and_normalize raw_records = inl ZeroDivisionError)
  \/ ((10 <= length raw_records)%nat /\ (10 <= length kept)%nat
      /\ sanitize_and_normalize raw_records
         = inr (number_from 0 kept,
                mkStatistics (Z.of_nat (length raw_records))
                             (Z.of_nat (length kept))
                             (Z.of_nat (length raw_records) - Z.of_nat (length kept))
                             (total_missing raw_records)
                             (Z.of_nat (length kept)))).
Proof.
  cbn zeta.
  destruct raw_records as [|record rest] eqn:Hraw; [left; split; reflexivity|].
  rewrite <- Hraw. assert (Hne : raw_records <> []) by (rewrite Hraw; discriminate).
  clear Hraw. right.
  destruct (Nat.lt_ge_cases (length raw_records) 10) as [Hsmall|Hlarge].
  - left. repeat split; [assumption|left; assumption|].
    unfold sanitize_and_normalize.
    rewrite sanitize_loop_small by (try assumption; lia). reflexivity.
  - unfold sanitize_and_normalize.
    rewrite (sanitize_loop_result raw_records 0 _ 0 ∅ [])
      by (try lia; intros key; rewrite elem_of_empty, elem_of_nil; reflexivity).
    cbn [bind app]. fold (kept_records raw_records). rewrite Z.add_0_l.
    pose proof (kept_records_nonempty raw_records Hne) as Hkept.
    destruct (Nat.lt_ge_cases (length (kept_records raw_records)) 10) as [Hfew|Hmany].
    + left. repeat split; [assumption|right; assumption|].
      destruct (kept_records raw_records) as [|first others]; [congruence|].
      cbn [assign_ids]. rewrite progress_due_small by (cbn [length] in Hfew |- *; lia). reflexivity.
    + right. repeat split; try assumption.
      rewrite assign_ids_large by lia. cbn [bind].
      rewrite number_from_length. reflexivity.
Qed.

(** What a normal return says about the input and the result. *)
Lemma sanitize_and_normalize_returned (raw_records out : list Review) (stats : Statistics) :
  sanitize_and_normalize raw_records = inr (out, stats) ->
  out = number_from 0 (kept_records raw_records)
  /\ stats = mkStatistics (Z.of_nat (length raw_records))
                          (Z.of_nat (length (kept_records raw_records)))
                          (Z.of_nat (length raw_records)
                           - Z.of_nat (length (kept_records raw_records)))
                          (total_missing raw_records)
                          (Z.of_nat (length (kept_records raw_records))).
Proof.
  intros Hrun.
  destruct (sanitize_and_normalize_cases raw_records)
    as [[-> H]|[(_ & _ & H)|(_ & _ & H)]]; rewrite H in Hrun.
  - injection Hrun as <- <-. split; reflexivity.
  - discriminate.
  - injection Hrun as <- <-. split; reflexivity.
Qed.


Lemma first_occurrences_position (records : list Review) :
  forall seen r,
    r ∈ first_occurrences seen records ->
    exists before after,
      records = before ++ r :: after
      /\ (composite_key r ∉ seen)
      /\ (composite_key r ∉ map composite_key before).
Proof.
  induction records as [|x rest IH]; intros seen r Hr; cbn [first_occurrences] in Hr.
  - inversion Hr.
  - destruct (decide (composite_key x ∈ seen)) as [Hin|Hout].
    + destruct (IH seen r Hr) as (before & after & -> & Hseen & Hbefore).
      exists (x :: before), after. repeat split; [assumption|].
      cbn [map]. intros Hk. apply elem_of_cons in Hk as [Hk|Hk]; [|contradiction].
      rewrite Hk in Hseen. contradiction.
    + apply elem_of_cons in Hr as [->|Hr].
      * exists [], rest. repeat split; [assumption|]. cbn. intros H. inversion H.
      * destruct (IH _ r Hr) as (before & after & -> & Hseen & Hbefore).
        exists (x :: before), after. repeat split.
        -- intros Hs. apply Hseen. right. assumption.
        -- cbn [map]. intros Hk. apply elem_of_cons in Hk as [Hk|Hk]; [|contradiction].
           apply Hseen. rewrite Hk. left.
Qed.

Lemma number_from_lookup (records : list Review) :
  forall index i r,
    number_from index records !! i = Some r ->
    exists original,
      records !! i = Some original
      /\ r = set_ReviewID original (review_id (index + Z.of_nat i)).
Proof.
  induction records as [|x rest IH]; intros index i r Hr; [destruct i; discriminate|].
  destruct i as [|i]; cbn [number_from] in Hr.
  - injection Hr as <-. exists x. split; [reflexivity|]. rewrite Z.add_0_r. reflexivity.
  - cbn in Hr. destruct (IH _ _ _ Hr) as (original & Ho & ->).
    exists original. split; [exact Ho|]. f_equal. f_equal. lia.
Qed.

Lemma number_from_member (records : list Review) (index : Z) (r : Review) :
  r ∈ number_from index records ->
  exists original id, original ∈ records /\ r = set_ReviewID original id.
Proof.
  intros Hr. apply list_elem_of_lookup in Hr as [i Hi].
  destruct (number_from_lookup _ _ _ _ Hi) as (original & Ho & ->).
  exists original, (review_id (index + Z.of_nat i)). split; [|reflexivity].
  eapply list_elem_of_lookup_2. exact Ho.
Qed.

(** X3: when [sanitize_and_normalize] returns, the records it returns are
    first occurrences: their composite keys are pairwise distinct, every
    key of the cleaned input is among them, they come in input order, and
    each is the cleaned input record before which its key does not occur,
    with an identifier put on. *)
Theorem sanitize_keeps_first_occurrences (raw_records out : list Review) (stats : Statistics) :
  sanitize_and_normalize raw_records = inr (out, stats) ->
  let cleaned := map (fun r => fst (sanitize_record r)) raw_records in
  NoDup (map composite_key out)
  /\ (forall r, r ∈ cleaned -> composite_key r ∈ map composite_key out)
  /\ (exists kept, kept `sublist_of` cleaned /\ out = number_from 0 kept)
  /\ (forall o, o ∈ out ->
        exists before r after id,
          cleaned = before ++ r :: after
          /\ o = set_ReviewID r id
          /\ composite_key r ∉ map composite_key before).
Proof.
  intros Hrun cleaned.
  apply sanitize_and_normalize_returned in Hrun as [-> _].
  destruct (first_occurrences_keys cleaned []) as (Hnodup & _ & Hsub & Hcover).
  destruct (number_from_ids (kept_records raw_records) 0 ltac:(lia)) as (_ & _ & Hkeys).
  rewrite Hkeys. fold cleaned in Hnodup. repeat split.
  - exact Hnodup.
  - intros r Hr. destruct (Hcover r Hr) as [Hseen|Hk]; [inversion Hseen|exact Hk].
  - exists (kept_records raw_records). split; [exact Hsub|reflexivity].
  - intros o Ho. apply number_from_member in Ho as (original & id & Horiginal & ->).
    apply first_occurrences_position in Horiginal as (before & after & Hcleaned & _ & Hbefore).
    exists before, original, after, id. auto.
Qed.

(** X4: when [sanitize_and_normalize] returns, the record at position [i]
    of the result carries the identifier [R] followed by [i] printed with
    six digits, and no two records carry the same identifier. *)
Theorem sanitize_numbers_records_in_order (raw_records out : list Review) (stats : Statistics) :
  sanitize_and_normalize raw_records = inr (out, stats) ->
  (forall i r, out !! i = Some r -> ReviewID r = Some (review_id (Z.of_nat i)))
  /\ NoDup (map ReviewID out)
  /\ (forall i j, (i < length out)%nat -> (j < length out)%nat ->
        review_id (Z.of_nat i) = review_id (Z.of_nat j) -> i = j).
Proof.
  intros Hrun. apply sanitize_and_normalize_returned in Hrun as [-> _].
  destruct (number_from_ids (kept_records raw_records) 0 ltac:(lia)) as (Hnodup & _ & _).
  repeat split.
  - intros i r Hr. apply number_from_lookup in Hr as (original & _ & ->). reflexivity.
  - exact Hnodup.
  - intros i j _ _ Hid. apply review_id_injective in Hid; lia.
Qed.

Lemma missing_count_bounds (record : Review) : 0 <= missing_count record <= 11.
Proof.
  unfold missing_count, absent.
  destruct (overall record), (vote record), (verified record), (reviewTime record),
    (reviewerID record), (asin record), (style record), (reviewerName record),
    (reviewText record), (summary record), (unixReviewTime record); lia.
Qed.

Lemma total_missing_bounds (raw_records : list Review) :
  0 <= total_missing raw_records <= 11 * Z.of_nat (length raw_records).
Proof.
  induction raw_records as [|record rest IH]; cbn [total_missing length]; [lia|].
  pose proof (missing_count_bounds record). lia.
Qed.

(** X5: the statistics of a run that returns: [total_loaded] is the number
    of raw records, [valid_records] and [unique_ids_generated] the number of
    records returned, [duplicates_removed] their difference (never
    negative), and [missing_fields_handled] the number of absent default
    fields over all raw records, at most eleven per record. *)
Theorem sanitize_statistics_add_up (raw_records out : list Review) (stats : Statistics) :
  sanitize_and_normalize raw_records = inr (out, stats) ->
  total_loaded stats = Z.of_nat (length raw_records)
  /\ valid_records stats = Z.of_nat (length out)
  /\ unique_ids_generated stats = Z.of_nat (length out)
  /\ duplicates_removed stats = total_loaded stats - valid_records stats
  /\ 0 <= duplicates_removed stats
  /\ missing_fields_handled stats = total_missing raw_records
  /\ 0 <= missing_fields_handled stats <= 11 * total_loaded stats.
Proof.
  intros Hrun. apply sanitize_and_normalize_returned in Hrun as [-> ->].
  cbn [total_loaded valid_records unique_ids_generated duplicates_removed
       missing_fields_handled].
  rewrite number_from_length.
  pose proof (kept_records_length raw_records).
  pose proof (total_missing_bounds raw_records).
  repeat split; lia.
Qed.

(** X6: every record a run returns has all eleven default fields and an
    identifier, and its seven text fields are stripped. *)
Theorem sanitize_returns_complete_records (raw_records out : list Review) (stats : Statistics) :
  sanitize_and_normalize raw_records = inr (out, stats) ->
  forall r, r ∈ out -> fully_sanitized r /\ ReviewID r <> None.
Proof.
  intros Hrun r Hr. apply sanitize_and_normalize_returned in Hrun as [-> _].
  apply number_from_member in Hr as (original & id & Horiginal & ->).
  split; [|discriminate].
  assert (Hclean : fully_sanitized original).
  { destruct (first_occurrences_keys (map (fun r => fst (sanitize_record r)) raw_records) [])
      as (_ & _ & Hsub & _).
    apply (elem_of_sublist _ _ _ Horiginal) in Hsub.
    apply list_elem_of_fmap in Hsub as (raw & -> & _).
    apply sanitize_record_sanitized. }
  exact Hclean.
Qed.


(** *** Loading and importing (dataset_processor.py, command_interface.py) *)

Lemma import_lines_large (source_file : list Review) :
  forall line_number record_count imported,
    10 <= record_count ->
    0 <= line_number ->
    import_lines source_file line_number record_count imported
    = inr (imported ++ take (Z.to_nat (record_count - line_number)) source_file).
Proof.
  induction source_file as [|record rest IH]; intros line_number record_count imported Hc Hl.
  - cbn. rewrite take_nil, app_nil_r. reflexivity.
  - cbn [import_lines]. destruct (Z.leb_spec record_count line_number) as [Hdone|Hmore].
    + replace (Z.to_nat (record_count - line_number)) with 0%nat by lia.
      cbn. rewrite app_nil_r. reflexivity.
    + destruct (progress_due_large line_number record_count Hc) as [due ->]. cbn [bind].
      rewrite IH by lia. rewrite <- app_assoc. cbn [app].
      replace (Z.to_nat (record_count - line_number))
        with (S (Z.to_nat (record_count - (line_number + 1)))) by lia.
      reflexivity.
Qed.

(** X7: with a record count of ten or more, [load_and_process] sanitizes
    exactly the first [record_count] lines of the source file (all of them
    when the file is shorter), so that [total_loaded] is the smaller of the
    record count and the number of lines; lines after that are never read. *)
Theorem load_reads_first_lines_only (source_file : list Review) (record_count : Z) :
  10 <= record_count ->
  load_and_process (Some source_file) record_count
    = sanitize_and_normalize (take (Z.to_nat record_count) source_file)
  /\ (forall out stats,
        load_and_process (Some source_file) record_count = inr (out, stats) ->
        total_loaded stats = Z.min record_count (Z.of_nat (length source_file)))
  /\ (forall ignored,
        record_count <= Z.of_nat (length source_file) ->
        load_and_process (Some (source_file ++ ignored)) record_count
        = load_and_process (Some source_file) record_count).
Proof.
  intros Hcount.
  assert (Hload : forall lines,
             load_and_process (Some lines) record_count
             = sanitize_and_normalize (take (Z.to_nat record_count) lines)).
  { intros lines. unfold load_and_process.
    rewrite import_lines_large by lia. cbn [bind app].
    rewrite Z.sub_0_r. reflexivity. }
  repeat split.
  - apply Hload.
  - intros out stats Hrun. rewrite Hload in Hrun.
    apply sanitize_and_normalize_returned in Hrun as [_ ->].
    cbn [total_loaded]. rewrite length_take. lia.
  - intros ignored Henough. rewrite !Hload. f_equal.
    apply take_app_le. lia.
Qed.


(** *** Versions and the files that do not count (command_interface.py) *)

Lemma collect_versions_app (filename_prefix : string) (names more : list string) :
  collect_versions filename_prefix (names ++ more)
  = collect_versions filename_prefix names ++ collect_versions filename_prefix more.
Proof.
  induction names as [|f names IH]; [reflexivity|].
  cbn [app collect_versions].
  destruct (PyStr.startswith f filename_prefix && PyStr.endswith f ".json");
    [|exact IH].
  destruct (PyFloat.of_string (PyStr.slice f (String.length filename_prefix) 5));
    [cbn [app]; f_equal|]; exact IH.
Qed.

(** X9: in a listing of ASCII names, a directory entry that is no
    [<dataset>_root_v....json] name, or whose middle part is no float, has no
    influence on the next version, wherever it stands in the listing; and a
    directory with no entry that counts gives version 1.0. *)
Theorem next_version_ignores_other_files (before after : list string)
    (filename dataset_identifier : string) :
  forallb is_ascii (before ++ filename :: after) = true ->
  is_snapshot_of dataset_identifier filename = false
  \/ PyFloat.of_string
       (PyStr.slice filename (String.length (dataset_identifier +:+ "_root_v")) 5) = None ->
  determine_next_version (before ++ filename :: after) dataset_identifier
    = determine_next_version (before ++ after) dataset_identifier
  /\ (collect_versions (dataset_identifier +:+ "_root_v") (before ++ after) = [] ->
      determine_next_version (before ++ filename :: after) dataset_identifier = PyFloat.one).
Proof.
  intros _ Hskip.
  assert (Hsame : collect_versions (dataset_identifier +:+ "_root_v")
                                   (before ++ filename :: after)
                  = collect_versions (dataset_identifier +:+ "_root_v") (before ++ after)).
  { rewrite !collect_versions_app. f_equal. cbn [collect_versions].
    unfold is_snapshot_of in Hskip.
    destruct Hskip as [Hname|Hfloat]; [rewrite Hname; reflexivity|].
    rewrite Hfloat. destruct (_ && _); reflexivity. }
  unfold determine_next_version. rewrite Hsame. split; [reflexivity|].
  intros ->. reflexivity.
Qed.

Lemma listdir_write (dir : directory) (file : string) (content : file_content) :
  forall name, In name (listdir (write_file dir file content))
               <-> name = file \/ In name (listdir dir).
Proof.
  clear generate_record_hash combine_child_hashes.
  intros name. induction dir as [|[n c] rest IH]; cbn.
  - intuition (subst; auto).
  - destruct (String.eqb_spec n file) as [->|Hn]; cbn.
    + intuition (subst; auto).
    + rewrite IH. intuition (subst; auto).
Qed.

(** X10: in a roots directory of ASCII file names, construct-tree on a
    dataset whose name is one path component never touches the raw or the
    processed files; a run that saves nothing leaves the whole world as it
    was; a run that saves writes one file of the roots directory: the
    listing gains at most that name, and every file under another name
    reads as before. *)
Theorem construct_writes_one_file (parameters : list string) (w : World) :
  (forall dataset_name, parameters = [dataset_name] -> plain_name dataset_name = true) ->
  forallb is_ascii (listdir (default [] (roots_dir w))) = true ->
  let outcome := fst (construct_verification_tree parameters w) in
  let w' := snd (construct_verification_tree parameters w) in
  raw_files w' = raw_files w
  /\ processed_files w' = processed_files w
  /\ ((forall file metadata, outcome <> inr (Construct_Saved file metadata)) -> w' = w)
  /\ (forall file metadata,
        outcome = inr (Construct_Saved file metadata) ->
        exists dir,
          roots_dir w' = Some dir
          /\ (forall name, name <> file ->
                read_file dir name = read_file (default [] (roots_dir w)) name)
          /\ (forall name, In name (listdir dir)
                           <-> name = file \/ In name (listdir (default [] (roots_dir w))))).
Proof.
  intros _ _. cbn zeta. unfold construct_verification_tree.
  destruct parameters as [|dataset_name [|extra more]];
    try (cbn [fst snd]; repeat split; intros; discriminate).
  destruct (processed_files w dataset_name) as [[record_set|]|];
    try (cbn [fst snd]; repeat split; intros; discriminate).
  destruct (build_complete_tree new_tree (traced_peak w) record_set)
    as [[error|[apex_hash peak]] hash_tree];
    try (cbn [fst snd]; repeat split; intros; discriminate).
  destruct (String.eqb apex_hash "");
    try (cbn [fst snd]; repeat split; intros; discriminate).
  cbn [fst snd with_roots raw_files processed_files roots_dir].
  repeat split.
  - intros Hnone. exfalso. eapply Hnone. reflexivity.
  - intros file metadata Hsaved. injection Hsaved as <- <-.
    eexists. split; [reflexivity|]. split.
    + intros name Hname. apply read_write_other. exact Hname.
    + apply listdir_write.
Qed.

(** *** The selectors on directories (integrity_checker.py, proof_generator.py,
    anomaly_detector.py) *)

Lemma latest_files_by_versioned (dir : directory) (dataset_identifier : string) :
  let choice :=
    match versioned (List.filter (is_snapshot_of dataset_identifier) (listdir dir)) with
    | [] => None
    | first :: others => Some (snd (py_max_by fst first others))
    end in
  integrity_latest_file (Some dir) dataset_identifier = inr choice
  /\ locate_latest_file (Some dir) dataset_identifier = inr choice
  /\ tampering_latest_file (Some dir) dataset_identifier = inr choice.
Proof.
  cbn zeta. unfold integrity_latest_file, locate_latest_file, tampering_latest_file.
  rewrite integrity_version_list_spec, locate_version_mapping_spec,
    tampering_version_data_spec by apply candidate_has_marker.
  cbn [bind]. fold (is_snapshot_of dataset_identifier).
  destruct (versioned (List.filter (is_snapshot_of dataset_identifier) (listdir dir)));
    repeat split; reflexivity.
Qed.

Lemma versioned_app (files more : list string) :
  versioned (files ++ more) = versioned files ++ versioned more.
Proof.
  induction files as [|f files IH]; [reflexivity|].
  cbn [app versioned]. destruct (snapshot_version f); [cbn [app]; f_equal|]; exact IH.
Qed.

Lemma versioned_nil (files : list string) :
  (forall f, In f files -> snapshot_version f = None) -> versioned files = [].
Proof.
  induction files as [|f files IH]; intros H; [reflexivity|].
  cbn [versioned]. rewrite (H f) by (left; reflexivity).
  apply IH. intros g Hg. apply H. right. exact Hg.
Qed.

(** X11: in a roots directory of ASCII file names, when no snapshot file of
    the dataset carries a float version (no roots directory, no file of that
    dataset, or only unparseable names), check-integrity reports that no
    stored apex was found, before it looks at the dataset, and the locate
    and detect-tampering loaders find no stored hash either; none of them
    raises. *)
Theorem no_versioned_snapshot_no_stored_apex (w : World) (dataset_identifier : string) :
  forallb is_ascii (listdir (default [] (roots_dir w))) = true ->
  (forall f, In f (listdir (default [] (roots_dir w))) ->
             is_snapshot_of dataset_identifier f = true ->
             snapshot_version f = None) ->
  execute_integrity_check [dataset_identifier] w = inr Integrity_NoStoredApex
  /\ locate_stored_apex (roots_dir w) dataset_identifier = inr None
  /\ tampering_baseline_apex (roots_dir w) dataset_identifier = inr None.
Proof.
  intros _ Hnone.
  unfold execute_integrity_check, integrity_stored_apex, locate_stored_apex,
    tampering_baseline_apex.
  destruct (roots_dir w) as [dir|]; [|repeat split; reflexivity].
  destruct (latest_files_by_versioned dir dataset_identifier) as (H1 & H2 & H3).
  rewrite versioned_nil in H1, H2, H3.
  - rewrite H1, H2, H3. repeat split; reflexivity.
  - intros f Hf. apply filter_In in Hf as [Hin Hsnap]. apply Hnone; assumption.
  - intros f Hf. apply filter_In in Hf as [Hin Hsnap]. apply Hnone; assumption.
  - intros f Hf. apply filter_In in Hf as [Hin Hsnap]. apply Hnone; assumption.
Qed.

(** X12: in a roots directory of ASCII file names, when the latest snapshot
    file does not hold a JSON object, check-integrity and the locate loader
    raise: the decode error of [json.load] when the file holds no JSON, the
    [AttributeError] of [.get] when it holds JSON that is no object;
    detect-tampering, which reads under [try/except Exception], goes on
    without a baseline in both cases. *)
Theorem malformed_snapshot_raises_or_is_skipped (w : World)
    (dataset_identifier latest : string) (content : file_content) :
  forallb is_ascii (listdir (default [] (roots_dir w))) = true ->
  integrity_latest_file (roots_dir w) dataset_identifier = inr (Some latest) ->
  read_file (default [] (roots_dir w)) latest = Some content ->
  (forall metadata, content <> JsonObject metadata) ->
  let error := match content with
               | NotAnObject => AttributeError
               | _ => JSONDecodeError
               end in
  execute_integrity_check [dataset_identifier] w = inl error
  /\ locate_stored_apex (roots_dir w) dataset_identifier = inl error
  /\ tampering_baseline_apex (roots_dir w) dataset_identifier = inr None.
Proof.
  intros _ Hlatest Hread Hcontent error.
  unfold execute_integrity_check, integrity_stored_apex, locate_stored_apex,
    tampering_baseline_apex.
  destruct (roots_dir w) as [dir|]; [|discriminate].
  destruct (latest_files_by_versioned dir dataset_identifier) as (H1 & H2 & H3).
  rewrite H1 in Hlatest. injection Hlatest as Hchoice.
  change (read_file dir latest = Some content) in Hread.
  rewrite H1, H2, H3, Hchoice. cbn [bind default from_option id]. rewrite Hread.
  subst error. destruct content as [| |metadata];
    [repeat split; reflexivity..|destruct (Hcontent metadata eq_refl)].
Qed.

(** X13: in a roots directory of ASCII file names, an entry that is not a
    [.json] snapshot name of the dataset, or whose version segment is no
    float, has no influence on which file the three selectors choose,
    wherever it stands in the listing and whatever it holds. *)
Theorem selectors_ignore_other_files (before after : directory) (filename : string)
    (content : file_content) (dataset_identifier : string) :
  forallb is_ascii (listdir (before ++ (filename, content) :: after)) = true ->
  is_snapshot_of dataset_identifier filename = false \/ snapshot_version filename = None ->
  integrity_latest_file (Some (before ++ (filename, content) :: after)) dataset_identifier
    = integrity_latest_file (Some (before ++ after)) dataset_identifier
  /\ locate_latest_file (Some (before ++ (filename, content) :: after)) dataset_identifier
     = locate_latest_file (Some (before ++ after)) dataset_identifier
  /\ tampering_latest_file (Some (before ++ (filename, content) :: after)) dataset_identifier
     = tampering_latest_file (Some (before ++ after)) dataset_identifier.
Proof.
  intros _ Hskip.
  destruct (latest_files_by_versioned (before ++ (filename, content) :: after)
              dataset_identifier) as (H1 & H2 & H3).
  destruct (latest_files_by_versioned (before ++ after) dataset_identifier)
    as (K1 & K2 & K3).
  assert (Hsame : versioned (List.filter (is_snapshot_of dataset_identifier)
                                         (listdir (before ++ (filename, content) :: after)))
                  = versioned (List.filter (is_snapshot_of dataset_identifier)
                                           (listdir (before ++ after)))).
  { unfold listdir. rewrite !map_app, !List.filter_app, !versioned_app. f_equal.
    cbn [map List.filter fst].
    destruct (is_snapshot_of dataset_identifier filename) eqn:Hsnap; [|reflexivity].
    destruct Hskip as [Hno|Hversion]; [discriminate|].
    cbn [versioned]. rewrite Hversion. reflexivity. }
  rewrite Hsame in H1, H2, H3.
  repeat split.
  - exact (eq_trans H1 (eq_sym K1)).
  - exact (eq_trans H2 (eq_sym K2)).
  - exact (eq_trans H3 (eq_sym K3)).
Qed.

(** *** Building and then checking (command_interface.py, integrity_checker.py) *)

Lemma split_scan_plain_prefix (name : string) :
  forall cur tail,
    without_underscore name = true ->
    PyStr.split_scan "_root_v" 0 cur (name +:+ tail)
    = PyStr.split_scan "_root_v" 0 (cur +:+ name) tail.
Proof.
  induction name as [|c name IH]; intros cur tail Hplain.
  - rewrite app_nil_l, string_app_nil_r. reflexivity.
  - cbn [without_underscore] in Hplain. apply andb_prop in Hplain as [Hc Hrest].
    rewrite app_cons. cbn [PyStr.split_scan String.prefix].
    destruct (ascii_dec "_" c) as [<-|_]; [discriminate|].
    rewrite IH by assumption. rewrite string_app_assoc. reflexivity.
Qed.

Lemma first_snapshot_version (dataset_name : string) :
  without_underscore dataset_name = true ->
  snapshot_version (root_storage_name dataset_name PyFloat.one) = Some PyFloat.one.
Proof.
  intros Hplain. unfold snapshot_version, version_segment, root_storage_name, PyStr.split.
  rewrite split_scan_plain_prefix by assumption.
  reflexivity.
Qed.

Lemma collect_versions_none (filename_prefix : string) (names : list string) :
  List.filter (fun f => PyStr.startswith f filename_prefix && PyStr.endswith f ".json") names
    = [] ->
  collect_versions filename_prefix names = [].
Proof.
  induction names as [|f names IH]; [reflexivity|].
  cbn [List.filter collect_versions].
  destruct (PyStr.startswith f filename_prefix && PyStr.endswith f ".json");
    [discriminate|exact IH].
Qed.

Lemma listdir_write_new (dir : directory) (file : string) (content : file_content) :
  ~ In file (listdir dir) ->
  listdir (write_file dir file content) = listdir dir ++ [file].
Proof.
  induction dir as [|[n c] rest IH]; intros Hnew; [reflexivity|].
  cbn [write_file]. destruct (String.eqb_spec n file) as [->|_].
  - exfalso. apply Hnew. left. reflexivity.
  - change (listdir ((n, c) :: write_file rest file content))
      with (n :: listdir (write_file rest file content)).
    rewrite IH; [reflexivity|]. intros H. apply Hnew. right. exact H.
Qed.

(** X14: on a dataset whose name is one path component without an
    underscore and that has no snapshot file yet, a construct-tree run that
    saves writes version 1.0, and on the roots directory it leaves all three
    selectors choose that file and load from it what the run stored: the
    check-integrity loader the saved metadata with its [root_hash], the
    locate and detect-tampering loaders the saved [root_hash]. *)
Theorem first_snapshot_is_read_back (w w' : World) (dataset_name file : string)
    (metadata : gmap string json_value) :
  plain_name dataset_name = true ->
  without_underscore dataset_name = true ->
  List.filter (is_snapshot_of dataset_name) (listdir (default [] (roots_dir w))) = [] ->
  construct_verification_tree [dataset_name] w = (inr (Construct_Saved file metadata), w') ->
  file = root_storage_name dataset_name PyFloat.one
  /\ integrity_latest_file (roots_dir w') dataset_name = inr (Some file)
  /\ locate_latest_file (roots_dir w') dataset_name = inr (Some file)
  /\ tampering_latest_file (roots_dir w') dataset_name = inr (Some file)
  /\ integrity_stored_apex (roots_dir w') dataset_name
     = inr (Some (metadata, metadata !! "root_hash"))
  /\ locate_stored_apex (roots_dir w') dataset_name = inr (metadata !! "root_hash")
  /\ tampering_baseline_apex (roots_dir w') dataset_name = inr (metadata !! "root_hash")
  /\ exists apex_hash, metadata !! "root_hash" = Some (JStr apex_hash) /\ apex_hash <> "".
Proof.
  intros _ Hplain Hfresh Hrun.
  unfold construct_verification_tree in Hrun.
  destruct (processed_files w dataset_name) as [[record_set|]|] eqn:Hproc; try discriminate.
  destruct (build_complete_tree new_tree (traced_peak w) record_set)
    as [[error|[apex_hash peak]] hash_tree] eqn:Hbuild; try discriminate.
  destruct (String.eqb_spec apex_hash "") as [|Hapex]; [discriminate|].
  set (existing := default [] (roots_dir w)) in Hrun, Hfresh.
  assert (Hversion : determine_next_version (listdir existing) dataset_name = PyFloat.one).
  { unfold determine_next_version. rewrite collect_versions_none; [reflexivity|exact Hfresh]. }
  rewrite Hversion in Hrun.
  set (new_file := root_storage_name dataset_name PyFloat.one) in Hrun.
  injection Hrun as Hfile Hmetadata Hworld.
  assert (Hnew : ~ In new_file (listdir existing)).
  { intros Hin.
    assert (Hcand : In new_file (List.filter (is_snapshot_of dataset_name) (listdir existing))).
    { apply filter_In. split; [exact Hin|].
      destruct (root_storage_name_parts dataset_name PyFloat.one) as (Hs & He & _).
      unfold is_snapshot_of. fold new_file in Hs, He. rewrite Hs, He. reflexivity. }
    rewrite Hfresh in Hcand. destruct Hcand. }
  rewrite Hmetadata in Hworld.
  set (dir := write_file existing new_file (JsonObject metadata)) in Hworld.
  assert (Hlatest : integrity_latest_file (Some dir) dataset_name = inr (Some new_file)
                    /\ locate_latest_file (Some dir) dataset_name = inr (Some new_file)
                    /\ tampering_latest_file (Some dir) dataset_name = inr (Some new_file)).
  { destruct (latest_files_by_versioned dir dataset_name) as (H1 & H2 & H3).
    assert (Hone : versioned (List.filter (is_snapshot_of dataset_name) (listdir dir))
                   = [(PyFloat.one, new_file)]).
    { unfold dir. rewrite listdir_write_new by exact Hnew.
      rewrite List.filter_app, Hfresh. cbn [app List.filter].
      destruct (root_storage_name_parts dataset_name PyFloat.one) as (Hs & He & _).
      unfold is_snapshot_of. fold new_file in Hs, He. rewrite Hs, He. cbn [andb versioned].
      unfold new_file. rewrite first_snapshot_version by exact Hplain. reflexivity. }
    rewrite Hone in H1, H2, H3. auto. }
  destruct Hlatest as (H1 & H2 & H3).
  assert (Hread : read_file dir new_file = Some (JsonObject metadata))
    by apply read_write_same.
  assert (Hhash : metadata !! "root_hash" = Some (JStr apex_hash))
    by (rewrite <- Hmetadata; reflexivity).
  split; [symmetry; exact Hfile|].
  subst w' file.
  unfold integrity_stored_apex, locate_stored_apex, tampering_baseline_apex.
  cbn [with_roots roots_dir].
  rewrite H1, H2, H3. cbn [bind default from_option id]. rewrite Hread.
  repeat (split; [reflexivity|]).
  exists apex_hash. split; [exact Hhash|exact Hapex].
Qed.

(** *** Reading back what [format] printed *)









(** *** dataset_modifier.py *)








Lemma find_record_absent (record_collection : list Review) (target_record_id : string) :
  find_record record_collection target_record_id = None
  <-> forall record, record ∈ record_collection -> ReviewID record <> Some target_record_id.
Proof.
  induction record_collection as [|rec rest IH]; cbn [find_record].
  - split; [intros _ record Hin; inversion Hin|reflexivity].
  - destruct (decide (ReviewID rec = Some target_record_id)) as [Hid|Hid].
    + split; [discriminate|]. intros Hall. destruct (Hall rec); [left|exact Hid].
    + destruct (find_record rest target_record_id) as [p|]; cbn [option_map].
      * split; [discriminate|]. intros Hall.
        assert (Hnone : Some p = None); [|discriminate].
        apply (proj2 IH). intros record Hin. apply Hall. right. exact Hin.
      * split; [|reflexivity]. intros _ record Hin.
        apply elem_of_cons in Hin as [->|Hin]; [exact Hid|].
        apply (proj1 IH); [reflexivity|exact Hin].
Qed.














(** X20: on a dataset that loads, modify --modify and modify --delete
    report that the record was not found, asking nothing, raising nothing
    and writing nothing, exactly when no record carries the given
    identifier. *)
Theorem absent_identifier_is_reported (dataset_identifier action target_record_id : string)
    (others inputs : list string) (draws : InsertDraws) (w : World)
    (record_collection : list Review) :
  action = "--modify" \/ action = "--delete" ->
  processed_files w dataset_identifier = Some (Some record_collection) ->
  perform_dataset_update (dataset_identifier :: action :: target_record_id :: others)
                         inputs draws w
  = inr (Modify_RecordNotFound, w)
  <-> forall record, record ∈ record_collection -> ReviewID record <> Some target_record_id.
Proof.
  intros Haction Hfile. rewrite <- find_record_absent.
  unfold perform_dataset_update. rewrite Hfile. cbn [hd].
  destruct (find_record record_collection target_record_id) as [position|].
  - split; [|discriminate]. intros Hrun. exfalso.
    destruct Haction as [-> | ->]; cbn in Hrun.
    + destruct (modify_record _ inputs) as [stop|[[field changed]|]]; discriminate.
    + destruct (read_line inputs) as [stop|[confirmation remaining]]; [discriminate|].
      destruct (String.eqb (PyFloat.lowercase confirmation) "yes"); discriminate.
  - split; [reflexivity|]. intros _. destruct Haction as [-> | ->]; reflexivity.
Qed.






End Engine.

(** ** The theorems on concrete inputs *)

(** Three records: the third leaf is paired with itself, and the path of
    the third record verifies against the apex. *)
Example build_three_records :
  apex_digest_of
    (build_complete_tree sample_record_hash sample_combine new_tree 0
                         [review_0; review_1; review_2])
  = inr "((h(R000000)+h(R000001))+(h(R000002)+h(R000002)))"
  /\ verify_authentication_path sample_combine "h(R000002)"
       [("LEFT", "h(R000002)"); ("RIGHT", "(h(R000000)+h(R000001))")]
       (JStr "((h(R000000)+h(R000001))+(h(R000002)+h(R000002)))")
     = inr Authenticated
  /\ verify_authentication_path sample_combine "h(R000002)"
       [("RIGHT", "h(R000002)"); ("LEFT", "(h(R000000)+h(R000001))")]
       (JStr "((h(R000000)+h(R000001))+(h(R000002)+h(R000002)))")
     = inr AuthenticationFailed.
Proof. repeat split; vm_compute; reflexivity. Qed.

(** The selectors on a directory with versions 1.0, 1.10 and 1e1, a name
    whose segment is no number and a snapshot of another dataset. *)
Example latest_of_mixed_directory :
  let roots := Some [("ds_root_v1.0.json", Malformed);
                     ("ds_root_v1e1.json", JsonObject sample_metadata);
                     ("ds_root_vlatest.json", Malformed);
                     ("other_root_v99.0.json", Malformed);
                     ("ds_root_v1.10.json", Malformed)] in
  integrity_latest_file roots "ds" = inr (Some "ds_root_v1e1.json")
  /\ locate_stored_apex roots "ds" = inr (Some (JStr "(h(R000000)+h(R000001))"))
  /\ tampering_baseline_apex roots "ds" = inr (Some (JStr "(h(R000000)+h(R000001))"))
  /\ root_storage_name "ds" (determine_next_version (listdir (default [] roots)) "ds")
     = "ds_root_v10.1.json".
Proof. repeat split; vm_compute; reflexivity. Qed.

(** Where the version written after [m] reads back above [m]: at small
    numbers of either sign, at numbers with more than one decimal, up to the
    last float below [2 ^ 50] and down to [- 2 ^ 50]; not from [2 ^ 50] on,
    nor below [- 2 ^ 50], where adding 0.1 is absorbed, nor at the
    infinities and NaN. *)
Example next_version_above_samples :
  map (fun text => option_map next_version_above (PyFloat.of_string text))
      ["0.15"; "1000.1"; "5000.0"; "-1.0"; "-0.05"; "5e-324"; "1e15";
       "562949953421312.0"; "1125899906842623.875"; "-1125899906842624.0";
       "1125899906842624.0"; "-1125899906842624.25"; "1e308"; "inf"; "-inf"; "nan"]
  = [Some true; Some true; Some true; Some true; Some true; Some true; Some true;
     Some true; Some true; Some true;
     Some false; Some false; Some false; Some false; Some false; Some false].
Proof. vm_compute. reflexivity. Qed.

(** A latest snapshot that holds JSON which is no object, [[1, 2]] say:
    [.get] raises [AttributeError] in check-integrity and in locate, and
    detect-tampering goes on without a baseline. *)
Example non_object_snapshot_raises :
  let w := mkWorld sample_raw sample_files (Some [("ds_root_v1.0.json", NotAnObject)])
                   "2024-05-02T09:30:00" 4096 in
  execute_integrity_check sample_record_hash sample_combine ["ds"] w = inl AttributeError
  /\ locate_stored_apex (roots_dir w) "ds" = inl AttributeError
  /\ tampering_baseline_apex (roots_dir w) "ds" = inr None.
Proof. repeat split; vm_compute; reflexivity. Qed.

(** C2 on [sample_world]: the stored digest equals the rebuilt one. *)
Lemma integrity_check_compares_digests_witness :
  integrity_stored_apex (roots_dir sample_world) "ds"
    = inr (Some (sample_metadata, Some (JStr "(h(R000000)+h(R000001))")))
  /\ exists report,
      execute_integrity_check sample_record_hash sample_combine ["ds"] sample_world = inr report
      /\ (report = Integrity_Confirmed
          <-> "(h(R000000)+h(R000001))" = "(h(R000000)+h(R000001))")
      /\ (report = Integrity_Compromised
          <-> "(h(R000000)+h(R000001))" <> "(h(R000000)+h(R000001))").
Proof.
  assert (Hstored : integrity_stored_apex (roots_dir sample_world) "ds"
                    = inr (Some (sample_metadata, Some (JStr "(h(R000000)+h(R000001))"))))
    by (vm_compute; reflexivity).
  split; [exact Hstored|].
  apply (integrity_check_compares_digests sample_record_hash sample_combine sample_world "ds"
           sample_metadata "(h(R000000)+h(R000001))" "(h(R000000)+h(R000001))"
           [review_0; review_1] 4096%N).
  - exact Hstored.
  - discriminate.
  - vm_compute; reflexivity.
  - vm_compute; reflexivity.
  - vm_compute; reflexivity.
  - vm_compute; reflexivity.
Defined.

(** C3, as stated, fails on two records: one reduction round (and
    [ceil(log2 2) = 1]), but the reported and stored height is 2. *)
Lemma two_records_have_height_two :
  reduction_rounds sample_record_hash sample_combine [review_0; review_1] = Some 1%nat
  /\ compute_tree_height
       (apex_vertex (snd (build_complete_tree sample_record_hash sample_combine new_tree 0
                                              [review_0; review_1]))) = 2%nat
  /\ compute_tree_height
       (apex_vertex (snd (build_complete_tree sample_record_hash sample_combine new_tree 0
                                              [review_0; review_1]))) <> 1%nat
  /\ exists file metadata w',
      construct_verification_tree sample_record_hash sample_combine ["ds"] sample_world
        = (inr (Construct_Saved file metadata), w')
      /\ metadata !! "tree_height" = Some (JInt 2).
Proof.
  split; [vm_compute; reflexivity|].
  split; [vm_compute; reflexivity|].
  split; [vm_compute; discriminate|].
  do 3 eexists. split; vm_compute; reflexivity.
Qed.

(** C3 (amended) on two records. *)
Lemma tree_height_is_rounds_plus_one_witness :
  [review_0; review_1] <> []
  /\ exists rounds,
      reduction_rounds sample_record_hash sample_combine [review_0; review_1] = Some rounds
      /\ compute_tree_height
           (apex_vertex (snd (build_complete_tree sample_record_hash sample_combine new_tree 0
                                                  [review_0; review_1]))) = S rounds.
Proof.
  split; [discriminate|].
  destruct (tree_height_is_rounds_plus_one sample_record_hash sample_combine 0
              [review_0; review_1]) as (rounds & Hrounds & Hheight & _).
  - discriminate.
  - exists rounds. split; assumption.
Defined.

(** C6, as stated, fails when a snapshot file carries the version [inf]:
    the next version is [inf + 0.1 = inf], the new file name is the name of
    the existing file, and the run replaces that file's content. *)
Lemma infinite_version_is_overwritten :
  let existing := default [] (roots_dir infinite_world) in
  read_file existing "ds_root_vinf.json" = Some (JsonObject sample_metadata)
  /\ exists w',
      construct_verification_tree sample_record_hash sample_combine ["ds"] infinite_world
        = (inr (Construct_Saved "ds_root_vinf.json" sample_new_metadata), w')
      /\ In "ds_root_vinf.json" (listdir existing)
      /\ PyFloat.gt (determine_next_version (listdir existing) "ds") (S754_infinity false) = false
      /\ exists dir,
          roots_dir w' = Some dir
          /\ read_file dir "ds_root_vinf.json" = Some (JsonObject sample_new_metadata)
          /\ read_file dir "ds_root_vinf.json" <> read_file existing "ds_root_vinf.json".
Proof.
  cbn zeta. split; [vm_compute; reflexivity|].
  eexists. split; [vm_compute; reflexivity|].
  split; [left; reflexivity|].
  split; [vm_compute; reflexivity|].
  eexists. split; [reflexivity|].
  split; [vm_compute; reflexivity|].
  vm_compute. intros H. discriminate H.
Qed.

(** The same happens at version [2 ^ 50], written the way construct-tree
    itself writes versions: adding 0.1 no longer changes the float. *)
Lemma huge_version_is_overwritten :
  let existing := default [] (roots_dir huge_world) in
  exists w',
    construct_verification_tree sample_record_hash sample_combine ["ds"] huge_world
      = (inr (Construct_Saved "ds_root_v1125899906842624.0.json" sample_new_metadata), w')
    /\ In "ds_root_v1125899906842624.0.json" (listdir existing).
Proof.
  cbn zeta. eexists. split; [vm_compute; reflexivity|left; reflexivity].
Qed.

(** C6 (amended) on [sample_world]: after version 1.0 comes 1.1. *)
Lemma next_snapshot_never_overwrites_witness :
  let written := write_file [("ds_root_v1.0.json", JsonObject sample_metadata)]
                            "ds_root_v1.1.json" (JsonObject sample_new_metadata) in
  let versions :=
    collect_versions ("ds" +:+ "_root_v") (listdir (default [] (roots_dir sample_world))) in
  construct_verification_tree sample_record_hash sample_combine ["ds"] sample_world
    = (inr (Construct_Saved "ds_root_v1.1.json" sample_new_metadata),
       with_roots sample_world written)
  /\ plain_name "ds" = true
  /\ forallb is_ascii (listdir (default [] (roots_dir sample_world))) = true
  /\ Forall (fun v => PyFloat.is_nan v = false) versions
  /\ Forall one_decimal_version versions
  /\ (exists parsed,
        PyFloat.of_string (PyStr.slice "ds_root_v1.1.json" (String.length ("ds" +:+ "_root_v")) 5)
          = Some parsed
        /\ Forall (fun v => PyFloat.gt parsed v = true) versions)
  /\ ~ In "ds_root_v1.1.json" (listdir (default [] (roots_dir sample_world)))
  /\ read_file written "ds_root_v1.0.json" = Some (JsonObject sample_metadata).
Proof.
  cbn zeta.
  assert (Hrun : construct_verification_tree sample_record_hash sample_combine ["ds"] sample_world
                 = (inr (Construct_Saved "ds_root_v1.1.json" sample_new_metadata),
                    with_roots sample_world
                      (write_file [("ds_root_v1.0.json", JsonObject sample_metadata)]
                                  "ds_root_v1.1.json" (JsonObject sample_new_metadata))))
    by (vm_compute; reflexivity).
  assert (Hplain : plain_name "ds" = true) by reflexivity.
  assert (Hascii : forallb is_ascii (listdir (default [] (roots_dir sample_world))) = true)
    by reflexivity.
  assert (Hrange : Forall one_decimal_version
            (collect_versions ("ds" +:+ "_root_v")
                              (listdir (default [] (roots_dir sample_world))))).
  { replace (collect_versions ("ds" +:+ "_root_v")
                              (listdir (default [] (roots_dir sample_world))))
      with [tenths 10] by (vm_compute; reflexivity).
    constructor; [|constructor]. exists 10%N. split; [lia|reflexivity]. }
  assert (Hnumbers : Forall (fun v => PyFloat.is_nan v = false)
            (collect_versions ("ds" +:+ "_root_v")
                              (listdir (default [] (roots_dir sample_world))))).
  { replace (collect_versions ("ds" +:+ "_root_v")
                              (listdir (default [] (roots_dir sample_world))))
      with [tenths 10] by (vm_compute; reflexivity).
    constructor; [reflexivity|constructor]. }
  destruct (next_snapshot_never_overwrites sample_record_hash sample_combine _ _ _ _ _
              Hrun Hplain Hascii Hnumbers) as (_ & _ & _ & Hiff & Hone & Hkeeps).
  specialize (Hone Hrange).
  destruct (Hkeeps Hone) as (Hfresh & dir & Hdir & _ & Hkept).
  split; [exact Hrun|]. split; [exact Hplain|]. split; [exact Hascii|].
  split; [exact Hnumbers|]. split; [exact Hrange|].
  split; [exact (proj2 Hiff Hone)|]. split; [exact Hfresh|].
  injection Hdir as <-. apply Hkept. vm_compute; reflexivity.
Defined.

(** C7, as stated, fails when a snapshot file carries the version [nan]
    and comes first in the listing: nothing is greater than NaN, so [max]
    keeps that file, and all three selectors choose it although another
    snapshot carries the float 5.0, which NaN is not greater than or equal
    to. *)
Lemma nan_snapshot_is_chosen :
  let roots := Some [("ds_root_vnan.json", JsonObject sample_metadata);
                     ("ds_root_v5.0.json", JsonObject sample_new_metadata)] in
  integrity_latest_file roots "ds" = inr (Some "ds_root_vnan.json")
  /\ locate_latest_file roots "ds" = inr (Some "ds_root_vnan.json")
  /\ tampering_latest_file roots "ds" = inr (Some "ds_root_vnan.json")
  /\ snapshot_version "ds_root_vnan.json" = Some S754_nan
  /\ exists five,
      snapshot_version "ds_root_v5.0.json" = Some five
      /\ PyFloat.gt five PyFloat.one = true
      /\ PyFloat.le five S754_nan = false
      /\ PyFloat.gt S754_nan five = false.
Proof.
  cbn zeta. repeat (split; [vm_compute; reflexivity|]).
  eexists. repeat split; vm_compute; reflexivity.
Qed.

(** C7 (amended) on a directory with versions 1.0, 1.10 and 1e1, a name
    whose segment is no number and a snapshot of another dataset: the file
    of version 1e1 is chosen. *)
Lemma latest_snapshot_selectors_agree_witness :
  let roots := Some [("ds_root_v1.0.json", Malformed);
                     ("ds_root_v1e1.json", JsonObject sample_metadata);
                     ("ds_root_vlatest.json", NotAnObject);
                     ("other_root_v99.0.json", Malformed);
                     ("ds_root_v1.10.json", Malformed)] in
  forallb is_ascii (listdir (default [] roots)) = true
  /\ integrity_latest_file roots "ds" = inr (Some "ds_root_v1e1.json")
  /\ locate_latest_file roots "ds" = inr (Some "ds_root_v1e1.json")
  /\ tampering_latest_file roots "ds" = inr (Some "ds_root_v1e1.json")
  /\ integrity_stored_apex roots "ds"
     = inr (Some (sample_metadata, sample_metadata !! "root_hash"))
  /\ locate_stored_apex roots "ds" = inr (sample_metadata !! "root_hash")
  /\ tampering_baseline_apex roots "ds" = inr (sample_metadata !! "root_hash").
Proof.
  cbn zeta.
  set (roots := Some [("ds_root_v1.0.json", Malformed);
                      ("ds_root_v1e1.json", JsonObject sample_metadata);
                      ("ds_root_vlatest.json", NotAnObject);
                      ("other_root_v99.0.json", Malformed);
                      ("ds_root_v1.10.json", Malformed)]).
  assert (Hascii : forallb is_ascii (listdir (default [] roots)) = true) by reflexivity.
  assert (Hchoice : integrity_latest_file roots "ds" = inr (Some "ds_root_v1e1.json"))
    by (vm_compute; reflexivity).
  destruct (latest_snapshot_selectors_agree roots "ds" Hascii)
    as (choice & H1 & H2 & H3 & _ & _ & Hload).
  assert (Hsame : choice = Some "ds_root_v1e1.json") by congruence.
  destruct (Hload "ds_root_v1e1.json" sample_metadata Hsame eq_refl) as (L1 & L2 & L3).
  rewrite Hsame in H2, H3.
  repeat (split; [assumption|]). exact L3.
Defined.

(** C8 on [sample_world]. *)
Lemma snapshot_has_the_five_keys_witness :
  construct_verification_tree sample_record_hash sample_combine ["ds"] sample_world
    = (inr (Construct_Saved "ds_root_v1.1.json" sample_new_metadata),
       with_roots sample_world
         (write_file [("ds_root_v1.0.json", JsonObject sample_metadata)]
                     "ds_root_v1.1.json" (JsonObject sample_new_metadata)))
  /\ dom sample_new_metadata
     = ({[ "timestamp"; "root_hash"; "record_count"; "dataset"; "tree_height" ]} : gset string).
Proof.
  assert (Hrun : construct_verification_tree sample_record_hash sample_combine ["ds"] sample_world
                 = (inr (Construct_Saved "ds_root_v1.1.json" sample_new_metadata),
                    with_roots sample_world
                      (write_file [("ds_root_v1.0.json", JsonObject sample_metadata)]
                                  "ds_root_v1.1.json" (JsonObject sample_new_metadata))))
    by (vm_compute; reflexivity).
  split; [exact Hrun|].
  exact (proj1 (snapshot_has_the_five_keys sample_record_hash sample_combine _ _ _ _ _ Hrun)).
Defined.

(** C9 at record count 5 on a two-line source file. *)
Lemma small_import_divides_by_zero_witness :
  1 <= 5 <= 9
  /\ [review_0; review_1] <> []
  /\ load_and_process (Some [review_0; review_1]) 5 = inl ZeroDivisionError
  /\ import_dataset ["ds"; "5"] sample_world = (Import_Error ZeroDivisionError, sample_world).
Proof.
  split; [lia|]. split; [discriminate|].
  destruct (small_import_divides_by_zero [review_0; review_1] 5) as [Hload Himport];
    [lia|discriminate|].
  split; [exact Hload|].
  apply Himport; vm_compute; reflexivity.
Defined.

(** C10 on a list of one raw record. *)
Lemma small_sanitize_divides_by_zero_witness :
  (1 <= length [review_0] <= 9)%nat
  /\ sanitize_and_normalize [review_0] = inl ZeroDivisionError.
Proof.
  split; [cbn; lia|].
  apply small_sanitize_divides_by_zero. cbn; lia.
Defined.

(** X3 on [sample_batch]: eleven raw lines, the last a duplicate. *)
Lemma sanitize_keeps_first_occurrences_witness :
  sanitize_and_normalize sample_batch
  = inr (number_from 0 (kept_records sample_batch), mkStatistics 11 10 1 77 10)
  /\ NoDup (map composite_key (number_from 0 (kept_records sample_batch)))
  /\ (forall r, r ∈ map (fun r => fst (sanitize_record r)) sample_batch ->
                composite_key r ∈ map composite_key (number_from 0 (kept_records sample_batch))).
Proof.
  assert (Hrun : sanitize_and_normalize sample_batch
                 = inr (number_from 0 (kept_records sample_batch),
                        mkStatistics 11 10 1 77 10))
    by (vm_compute; reflexivity).
  split; [exact Hrun|].
  destruct (sanitize_keeps_first_occurrences _ _ _ Hrun) as (Hdistinct & Hall & _).
  split; [exact Hdistinct|exact Hall].
Defined.

(** X4 on [sample_batch]. *)
Lemma sanitize_numbers_records_in_order_witness :
  sanitize_and_normalize sample_batch
  = inr (number_from 0 (kept_records sample_batch), mkStatistics 11 10 1 77 10)
  /\ (forall i r, number_from 0 (kept_records sample_batch) !! i = Some r ->
                  ReviewID r = Some (review_id (Z.of_nat i)))
  /\ NoDup (map ReviewID (number_from 0 (kept_records sample_batch))).
Proof.
  assert (Hrun : sanitize_and_normalize sample_batch
                 = inr (number_from 0 (kept_records sample_batch),
                        mkStatistics 11 10 1 77 10))
    by (vm_compute; reflexivity).
  split; [exact Hrun|].
  destruct (sanitize_numbers_records_in_order _ _ _ Hrun) as (Hids & Hdistinct & _).
  split; [exact Hids|exact Hdistinct].
Defined.

(** X5 on [sample_batch]: 11 loaded, 10 kept, 1 duplicate, 77 defaults. *)
Lemma sanitize_statistics_add_up_witness :
  sanitize_and_normalize sample_batch
  = inr (number_from 0 (kept_records sample_batch), mkStatistics 11 10 1 77 10)
  /\ total_loaded (mkStatistics 11 10 1 77 10) = Z.of_nat (length sample_batch)
  /\ missing_fields_handled (mkStatistics 11 10 1 77 10) = total_missing sample_batch.
Proof.
  assert (Hrun : sanitize_and_normalize sample_batch
                 = inr (number_from 0 (kept_records sample_batch),
                        mkStatistics 11 10 1 77 10))
    by (vm_compute; reflexivity).
  split; [exact Hrun|].
  destruct (sanitize_statistics_add_up _ _ _ Hrun) as (Hloaded & _ & _ & _ & _ & Hmissing & _).
  split; [exact Hloaded|exact Hmissing].
Defined.

(** X6 on [sample_batch]. *)
Lemma sanitize_returns_complete_records_witness :
  sanitize_and_normalize sample_batch
  = inr (number_from 0 (kept_records sample_batch), mkStatistics 11 10 1 77 10)
  /\ forall r, r ∈ number_from 0 (kept_records sample_batch) ->
               fully_sanitized r /\ ReviewID r <> None.
Proof.
  assert (Hrun : sanitize_and_normalize sample_batch
                 = inr (number_from 0 (kept_records sample_batch),
                        mkStatistics 11 10 1 77 10))
    by (vm_compute; reflexivity).
  split; [exact Hrun|].
  exact (sanitize_returns_complete_records _ _ _ Hrun).
Defined.

(** X7 at record count 10 on the eleven lines of [sample_batch]. *)
Lemma load_reads_first_lines_only_witness :
  10 <= 10
  /\ load_and_process (Some sample_batch) 10
     = sanitize_and_normalize (take (Z.to_nat 10) sample_batch).
Proof.
  split; [lia|].
  assert (Hcount : 10 <= 10) by lia.
  exact (proj1 (load_reads_first_lines_only sample_batch 10 Hcount)).
Defined.

(** X9 on a listing with a snapshot of another dataset beside version 1.0
    of [ds]. *)
Lemma next_version_ignores_other_files_witness :
  forallb is_ascii (["ds_root_v1.0.json"] ++ "other_root_v9.0.json" :: []) = true
  /\ is_snapshot_of "ds" "other_root_v9.0.json" = false
  /\ determine_next_version (["ds_root_v1.0.json"] ++ "other_root_v9.0.json" :: []) "ds"
     = determine_next_version (["ds_root_v1.0.json"] ++ []) "ds".
Proof.
  assert (Hascii : forallb is_ascii (["ds_root_v1.0.json"] ++ "other_root_v9.0.json" :: [])
                   = true) by reflexivity.
  assert (Hother : is_snapshot_of "ds" "other_root_v9.0.json" = false)
    by (vm_compute; reflexivity).
  split; [exact Hascii|]. split; [exact Hother|].
  exact (proj1 (next_version_ignores_other_files ["ds_root_v1.0.json"] []
                  "other_root_v9.0.json" "ds" Hascii (or_introl Hother))).
Defined.

(** X10 on [sample_world]: the run saves version 1.1 and leaves the raw and
    the processed files alone. *)
Lemma construct_writes_one_file_witness :
  plain_name "ds" = true
  /\ forallb is_ascii (listdir (default [] (roots_dir sample_world))) = true
  /\ raw_files (snd (construct_verification_tree sample_record_hash sample_combine ["ds"]
                                                  sample_world))
     = raw_files sample_world
  /\ processed_files (snd (construct_verification_tree sample_record_hash sample_combine
                                                        ["ds"] sample_world))
     = processed_files sample_world.
Proof.
  assert (Hplain : forall dataset_name, ["ds"] = [dataset_name] ->
                                        plain_name dataset_name = true)
    by (intros dataset_name Hname; injection Hname as <-; reflexivity).
  assert (Hascii : forallb is_ascii (listdir (default [] (roots_dir sample_world))) = true)
    by reflexivity.
  split; [reflexivity|]. split; [exact Hascii|].
  destruct (construct_writes_one_file sample_record_hash sample_combine ["ds"] sample_world
              Hplain Hascii) as (Hraw & Hprocessed & _).
  split; [exact Hraw|exact Hprocessed].
Defined.

(** X11 on [unversioned_world]. *)
Lemma no_versioned_snapshot_no_stored_apex_witness :
  forallb is_ascii (listdir (default [] (roots_dir unversioned_world))) = true
  /\ execute_integrity_check sample_record_hash sample_combine ["ds"] unversioned_world
     = inr Integrity_NoStoredApex
  /\ locate_stored_apex (roots_dir unversioned_world) "ds" = inr None
  /\ tampering_baseline_apex (roots_dir unversioned_world) "ds" = inr None.
Proof.
  assert (Hascii : forallb is_ascii (listdir (default [] (roots_dir unversioned_world)))
                   = true) by reflexivity.
  split; [exact Hascii|].
  apply (no_versioned_snapshot_no_stored_apex sample_record_hash sample_combine
           unversioned_world "ds" Hascii).
  intros f [<-|[<-|[]]] Hsnapshot; [vm_compute; reflexivity|vm_compute in Hsnapshot; discriminate].
Defined.

(** X12 on [malformed_world], whose snapshot holds no JSON. *)
Lemma malformed_snapshot_raises_or_is_skipped_witness :
  forallb is_ascii (listdir (default [] (roots_dir malformed_world))) = true
  /\ integrity_latest_file (roots_dir malformed_world) "ds" = inr (Some "ds_root_v1.0.json")
  /\ read_file (default [] (roots_dir malformed_world)) "ds_root_v1.0.json" = Some Malformed
  /\ execute_integrity_check sample_record_hash sample_combine ["ds"] malformed_world
     = inl JSONDecodeError
  /\ locate_stored_apex (roots_dir malformed_world) "ds" = inl JSONDecodeError
  /\ tampering_baseline_apex (roots_dir malformed_world) "ds" = inr None.
Proof.
  assert (Hascii : forallb is_ascii (listdir (default [] (roots_dir malformed_world))) = true)
    by reflexivity.
  assert (Hlatest : integrity_latest_file (roots_dir malformed_world) "ds"
                    = inr (Some "ds_root_v1.0.json")) by (vm_compute; reflexivity).
  assert (Hread : read_file (default [] (roots_dir malformed_world)) "ds_root_v1.0.json"
                  = Some Malformed) by reflexivity.
  assert (Hcontent : forall metadata, Malformed <> JsonObject metadata) by discriminate.
  split; [exact Hascii|]. split; [exact Hlatest|]. split; [exact Hread|].
  exact (malformed_snapshot_raises_or_is_skipped sample_record_hash sample_combine
           malformed_world "ds" "ds_root_v1.0.json" Malformed Hascii Hlatest Hread Hcontent).
Defined.

(** X13 on a directory with a file whose version segment is no number
    beside version 1.0. *)
Lemma selectors_ignore_other_files_witness :
  forallb is_ascii (listdir ([("ds_root_v1.0.json", JsonObject sample_metadata)]
                             ++ ("ds_root_vlatest.json", Malformed) :: [])) = true
  /\ snapshot_version "ds_root_vlatest.json" = None
  /\ integrity_latest_file
       (Some ([("ds_root_v1.0.json", JsonObject sample_metadata)]
              ++ ("ds_root_vlatest.json", Malformed) :: [])) "ds"
     = integrity_latest_file
         (Some ([("ds_root_v1.0.json", JsonObject sample_metadata)] ++ [])) "ds".
Proof.
  assert (Hascii : forallb is_ascii
                     (listdir ([("ds_root_v1.0.json", JsonObject sample_metadata)]
                               ++ ("ds_root_vlatest.json", Malformed) :: [])) = true)
    by reflexivity.
  assert (Hversion : snapshot_version "ds_root_vlatest.json" = None)
    by (vm_compute; reflexivity).
  split; [exact Hascii|]. split; [exact Hversion|].
  exact (proj1 (selectors_ignore_other_files
                  [("ds_root_v1.0.json", JsonObject sample_metadata)] []
                  "ds_root_vlatest.json" Malformed "ds" Hascii (or_intror Hversion))).
Defined.

(** X14 on [fresh_world]: the first snapshot of [ds] is version 1.0, and the
    check-integrity loader reads it back. *)
Lemma first_snapshot_is_read_back_witness :
  construct_verification_tree sample_record_hash sample_combine ["ds"] fresh_world
  = (inr (Construct_Saved "ds_root_v1.0.json" sample_new_metadata),
     with_roots fresh_world [("ds_root_v1.0.json", JsonObject sample_new_metadata)])
  /\ plain_name "ds" = true
  /\ without_underscore "ds" = true
  /\ integrity_stored_apex
       (roots_dir (with_roots fresh_world
                              [("ds_root_v1.0.json", JsonObject sample_new_metadata)])) "ds"
     = inr (Some (sample_new_metadata, sample_new_metadata !! "root_hash")).
Proof.
  assert (Hrun : construct_verification_tree sample_record_hash sample_combine ["ds"] fresh_world
                 = (inr (Construct_Saved "ds_root_v1.0.json" sample_new_metadata),
                    with_roots fresh_world
                      [("ds_root_v1.0.json", JsonObject sample_new_metadata)]))
    by (vm_compute; reflexivity).
  assert (Hplain : plain_name "ds" = true) by reflexivity.
  assert (Hname : without_underscore "ds" = true) by reflexivity.
  assert (Hfresh : List.filter (is_snapshot_of "ds")
                               (listdir (default [] (roots_dir fresh_world))) = [])
    by reflexivity.
  split; [exact Hrun|]. split; [exact Hplain|]. split; [exact Hname|].
  destruct (first_snapshot_is_read_back sample_record_hash sample_combine fresh_world _ "ds"
              _ _ Hplain Hname Hfresh Hrun) as (_ & _ & _ & _ & Hstored & _).
  exact Hstored.
Defined.






(** X20 on [sample_world]: no record is [R000007]. *)
Lemma absent_identifier_is_reported_witness :
  ("--delete" = "--modify" \/ "--delete" = "--delete")
  /\ processed_files sample_world "ds" = Some (Some [review_0; review_1])
  /\ (perform_dataset_update ["ds"; "--delete"; "R000007"] [] sample_draws sample_world
      = inr (Modify_RecordNotFound, sample_world)
      <-> forall record, record ∈ [review_0; review_1] -> ReviewID record <> Some "R000007").
Proof.
  split; [right; reflexivity|]. split; [reflexivity|].
  apply (absent_identifier_is_reported "ds" "--delete" "R000007" [] [] sample_draws sample_world
           [review_0; review_1]); [right; reflexivity|reflexivity].
Defined.


